(** * The NL-to-SQL agent workflow: a shallow embedding

    This development embeds the workflow of the agent (the graph wired in
    [core/agent.py], the steps of [agents/nodes.py], the tools of
    [tools/sql_tools.py], [tools/analysis_tools.py] and
    [tools/memory_management.py], and the two request entry points
    [app/api.py] and [langgraph_agent_pipe.py]) and proves properties of
    its routing, its self-correction cycle and its error handling.

    Python values are a small universe of [value]s, dictionaries are
    [gmap string value], exceptions are explicit results, and the external
    collaborators (language model, database, vector store, JSON decoding,
    figure rendering) are fields of an environment record that the
    theorems quantify over. *)

From Stdlib Require Import String Ascii List ZArith Lia Bool.
From stdpp Require Import gmap strings.
Import ListNotations.

Set Warnings "-register-all".
Local Open Scope string_scope.

(** ** Python strings (ASCII text) *)

Module PyStr.

(** [str.isspace] restricted to ASCII: tab, newline, vertical tab, form
    feed, carriage return, the four separators 28..31 and the space. *)
Definition is_space (c : ascii) : bool :=
  let n := nat_of_ascii c in
  ((9 <=? n)%nat && (n <=? 13)%nat) || ((28 <=? n)%nat && (n <=? 32)%nat).

Fixpoint lstrip (s : string) : string :=
  match s with
  | EmptyString => EmptyString
  | String c s' => if is_space c then lstrip s' else s
  end.

Fixpoint rstrip (s : string) : string :=
  match s with
  | EmptyString => EmptyString
  | String c s' =>
      match rstrip s' with
      | EmptyString => if is_space c then EmptyString else String c EmptyString
      | r => String c r
      end
  end.

(** [s.strip()] *)
Definition strip (s : string) : string := rstrip (lstrip s).

Definition upper_char (c : ascii) : ascii :=
  let n := nat_of_ascii c in
  if (97 <=? n)%nat && (n <=? 122)%nat then ascii_of_nat (n - 32) else c.

(** [s.upper()] *)
Fixpoint upper (s : string) : string :=
  match s with
  | EmptyString => EmptyString
  | String c s' => String (upper_char c) (upper s')
  end.

(** [s.startswith(p)] *)
Definition startswith (s p : string) : bool := String.prefix p s.

(** [s.replace(old, new)] for a non-empty [old]: occurrences are replaced
    left to right without overlap; [skip] counts the characters of a
    matched occurrence still to be dropped. *)
Fixpoint replace_from (old new : string) (skip : nat) (s : string) : string :=
  match s with
  | EmptyString => EmptyString
  | String c s' =>
      match skip with
      | S k => replace_from old new k s'
      | O =>
          if String.prefix old s
          then new ++ replace_from old new (String.length old - 1) s'
          else String c (replace_from old new 0 s')
      end
  end.

Definition replace (s old new : string) : string := replace_from old new 0 s.

(** [s.split(sep)] for a one-character separator. *)
Fixpoint split (sep : ascii) (s : string) : list string :=
  match s with
  | EmptyString => [EmptyString]
  | String c s' =>
      if Ascii.eqb c sep then EmptyString :: split sep s'
      else match split sep s' with
           | [] => [String c EmptyString]
           | w :: ws => String c w :: ws
           end
  end.

End PyStr.

(** ** Python values *)

(** The values that travel through the state record, the tool results and
    the decoded model output: [None], booleans, numbers, strings, lists and
    string-keyed dictionaries (row mappings, chat messages, chart plans). *)
Inductive value : Type :=
| VNone
| VBool (b : bool)
| VInt (z : Z)
| VStr (s : string)
| VList (l : list value)
| VDict (d : list (string * value)).

(** Python truthiness, as used by [if x] and [not x]. *)
Definition truthy (v : value) : bool :=
  match v with
  | VNone => false
  | VBool b => b
  | VInt z => negb (Z.eqb z 0)
  | VStr s => match s with EmptyString => false | String _ _ => true end
  | VList l => match l with [] => false | _ :: _ => true end
  | VDict d => match d with [] => false | _ :: _ => true end
  end.

(** Lookup in a dictionary value kept as an association list. *)
Fixpoint assoc {A : Type} (k : string) (d : list (string * A)) : option A :=
  match d with
  | [] => None
  | (k', v) :: d' => if String.eqb k k' then Some v else assoc k d'
  end.

(** ** Exceptions and results *)

Inductive exn_class : Type :=
| KeyError | TypeError | AttributeError | ValueError
| JSONDecodeError | ValidationError
| PsycopgError | ConnectionError | ModelError | HTTPException.

(** An exception: its class and [str(e)]. Every class above derives from
    [Exception], so [except Exception] catches all of them; what lies
    outside [Exception] (cancellation, interrupts) is not modelled. *)
Record exn : Type := Exn { exn_cls : exn_class; exn_msg : string }.

Inductive res (A : Type) : Type :=
| Ok (a : A)
| Raise (e : exn).
Arguments Ok {A} a.
Arguments Raise {A} e.

(** ** The external collaborators *)

(** What [invoke_chat_completion] gives back: a text, [None] (a response
    without choices), or the exception left after the retries. *)
Inductive llm_reply : Type :=
| Reply (s : string)
| NoReply
| LlmFail (e : exn).

(** What one pass through the [try] block of [execute_sql_query] meets. *)
Inductive db_outcome : Type :=
| ConnectFailed (e : exn)       (* get_db_connection / cursor raised *)
| ExecuteFailed (e : exn)       (* cur.execute raised *)
| NoDescription                 (* cur.description is None *)
| Fetched (rows : list value)   (* cur.fetchall() *)
| FetchFailed (e : exn).        (* cur.fetchall raised *)

Inductive search_outcome : Type :=
| Hits (texts : list string)
| SearchFailed (e : exn).

Record env : Type := Env {
  (** the n-th call of [invoke_chat_completion] *)
  llm : nat -> llm_reply;
  (** the n-th attempt to run a query, and the query text *)
  db : nat -> string -> db_outcome;
  (** the n-th similarity search *)
  search : nat -> search_outcome;
  (** the n-th [add_documents]: [None] when it succeeds *)
  add_documents : nat -> option exn;
  (** [json.loads] *)
  json_loads : string -> res value;
  (** [VisualizationPlan.model_validate_json(s).model_dump()] *)
  model_validate_json : string -> res value;
  (** [create_plotly_figure(chart_plan, data)] followed by
      [figure.to_json()]: [None] when no figure comes back *)
  render : value -> value -> option string;
  (** [str(v)], as used when a value is formatted into a message *)
  py_str : value -> string
}.

(** The observable side of the collaborators: how many model calls,
    connection attempts and searches were made, which queries reached
    [cur.execute], and which facts were handed to the vector store. *)
Record world : Type := World {
  llm_calls : nat;
  db_attempts : nat;
  db_log : list string;
  search_calls : nat;
  memory_log : list (value * value)
}.

Definition world0 : world := World 0 0 [] 0 [].

(** ** Computations: state passing over the world, with exceptions *)

Definition M (A : Type) : Type := world -> res A * world.

Definition ret {A} (a : A) : M A := fun w => (Ok a, w).
Definition raise {A} (e : exn) : M A := fun w => (Raise e, w).
Definition bind {A B} (m : M A) (k : A -> M B) : M B :=
  fun w => match m w with
           | (Ok a, w') => k a w'
           | (Raise e, w') => (Raise e, w')
           end.
Definition lift {A} (r : res A) : M A := fun w => (r, w).

(** [try: body / except Exception as e: handler e] *)
Definition try_except {A} (body : M A) (handler : exn -> M A) : M A :=
  fun w => match body w with
           | (Ok a, w') => (Ok a, w')
           | (Raise e, w') => handler e w'
           end.

Notation "'let*' x := m 'in' k" := (bind m (fun x => k))
  (at level 10, x name, m at level 100, k at level 200, only parsing).
Notation "m ;;; k" := (bind m (fun _ => k))
  (at level 100, k at level 200, right associativity, only parsing).

(** ** Dictionaries *)

(** [d.get(k)] and [d.get(k, default)] *)
Definition get (d : gmap string value) (k : string) : value :=
  default VNone (d !! k).
Definition get_or (d : gmap string value) (k : string) (dflt : value) : value :=
  default dflt (d !! k).

(** [d[k]] *)
Definition item (d : gmap string value) (k : string) : M value :=
  match d !! k with
  | Some v => ret v
  | None => raise (Exn KeyError k)
  end.

(** [v.get(k, default)] on a decoded value: only a dictionary has [get]. *)
Definition value_get (v : value) (k : string) (dflt : value) : res value :=
  match v with
  | VDict d => Ok (default dflt (assoc k d))
  | _ => Raise (Exn AttributeError "object has no attribute 'get'")
  end.

(** [v.strip()] on a value: only a string has [strip]. *)
Definition value_strip (v : value) : res string :=
  match v with
  | VStr s => Ok (PyStr.strip s)
  | _ => Raise (Exn AttributeError "object has no attribute 'strip'")
  end.

(** [question[:100]], evaluated by the tools for their log line before any
    [try]: a string and a list can be sliced, the other values cannot. *)
Definition sliceable (v : value) : res unit :=
  match v with
  | VStr _ | VList _ => Ok tt
  | _ => Raise (Exn TypeError "object is not subscriptable")
  end.

(** [for x in v]: the items a loop over [v] visits. *)
Definition iterate (v : value) : res (list value) :=
  match v with
  | VList l => Ok l
  | VDict d => Ok (map (fun kv => VStr (fst kv)) d)
  | VStr s => Ok (map (fun c => VStr (String c EmptyString)) (list_ascii_of_string s))
  | _ => Raise (Exn TypeError "object is not iterable")
  end.

(** [len(v)] *)
Definition py_len (v : value) : res nat :=
  match v with
  | VStr s => Ok (String.length s)
  | VList l => Ok (List.length l)
  | VDict d => Ok (List.length d)
  | _ => Raise (Exn TypeError "object has no len()")
  end.

Definition nl : string := String (ascii_of_nat 10) EmptyString.

(** [sep.join(l)] *)
Definition join (sep : string) (l : list string) : string := String.concat sep l.

(** The cleaning applied to a generated query: strip it, remove the code
    fence markers (first the one tagged sql, then the bare one), strip
    again. *)
Definition clean_sql (reply : value) : res string :=
  match value_strip reply with
  | Ok s => Ok (PyStr.strip (PyStr.replace (PyStr.replace s "```sql" EmptyString)
                            "```" EmptyString))
  | Raise e => Raise e
  end.

Section Agent.

Variable E : env.

(** *** The collaborators as computations *)

Definition invoke_chat_completion : M value := fun w =>
  let w' := World (S (llm_calls w)) (db_attempts w) (db_log w)
                  (search_calls w) (memory_log w) in
  match llm E (llm_calls w) with
  | Reply s => (Ok (VStr s), w')
  | NoReply => (Ok VNone, w')
  | LlmFail e => (Raise e, w')
  end.

Definition similarity_search : M (list string) := fun w =>
  let w' := World (llm_calls w) (db_attempts w) (db_log w)
                  (S (search_calls w)) (memory_log w) in
  match search E (search_calls w) with
  | Hits texts => (Ok texts, w')
  | SearchFailed e => (Raise e, w')
  end.

Definition vector_store_add (user_id fact : value) : M unit := fun w =>
  let w' := World (llm_calls w) (db_attempts w) (db_log w)
                  (search_calls w) (memory_log w ++ [(user_id, fact)]) in
  match add_documents E (List.length (memory_log w)) with
  | None => (Ok tt, w')
  | Some e => (Raise e, w')
  end.

(** [json.loads(v)]: only a string can be decoded. *)
Definition loads (v : value) : res value :=
  match v with
  | VStr s => json_loads E s
  | _ => Raise (Exn TypeError "the JSON object must be str, bytes or bytearray")
  end.

(** *** tools/sql_tools.py *)

(** A call [tool.ainvoke({...})] is the call of the body of the tool on
    those arguments. *)
Definition get_relevant_schema (question : value) : M value :=
  lift (sliceable question) ;;;
  try_except
    (let* schema_results := similarity_search in
     match schema_results with
     | [] => ret (VStr "No relevant database schema information was found for your question.")
     | _ => ret (VStr (join (nl ++ nl ++ "---" ++ nl ++ nl) schema_results))
     end)
    (fun e => ret (VStr ("Error: Failed to retrieve database schema. Details: " ++ exn_msg e))).

Definition get_few_shot_examples (question : value) : M value :=
  lift (sliceable question) ;;;
  try_except
    (let* example_results := similarity_search in
     match example_results with
     | [] => ret (VStr "No query examples were found for this type of question.")
     | _ => ret (VStr (join (nl ++ nl ++ "---" ++ nl ++ nl) example_results))
     end)
    (fun e => ret (VStr ("Error: Failed to retrieve few-shot examples. Details: " ++ exn_msg e))).

Definition sql_result (rows err : value) : gmap string value :=
  {[ "query_result" := rows; "sql_error" := err ]}.

(** The body of the [try] block of [execute_sql_query]: take a
    connection, run the query, read the rows. A query is entered in
    [db_log] exactly when [cur.execute] is called with it. *)
Definition run_query (q : string) : M (gmap string value) := fun w =>
  let tried := World (llm_calls w) (S (db_attempts w)) (db_log w)
                     (search_calls w) (memory_log w) in
  let sent := World (llm_calls w) (S (db_attempts w)) (db_log w ++ [q])
                    (search_calls w) (memory_log w) in
  match db E (db_attempts w) q with
  | ConnectFailed e => (Raise e, tried)
  | ExecuteFailed e => (Raise e, sent)
  | NoDescription => (Ok (sql_result (VList []) VNone), sent)
  | Fetched rows => (Ok (sql_result (VList rows) VNone), sent)
  | FetchFailed e => (Raise e, sent)
  end.

Definition execute_sql_query (sql_query : value) : M (gmap string value) :=
  match sql_query with
  | VStr q =>
      if negb (truthy (VStr (PyStr.strip q))) then
        ret (sql_result VNone (VStr "Invalid or empty SQL query provided."))
      else if negb (PyStr.startswith (PyStr.upper (PyStr.strip q)) "SELECT") then
        ret (sql_result VNone (VStr "Security Error: Only SELECT queries are allowed."))
      else
        (* both handlers, for psycopg's Error and for Exception, return
           the same mapping *)
        try_except (run_query q)
          (fun e => ret (sql_result VNone (VStr (exn_msg e))))
  | _ => ret (sql_result VNone (VStr "Invalid or empty SQL query provided."))
  end.

(** *** tools/memory_management.py *)

Definition load_memory (user_id query : value) : M value :=
  lift (sliceable query) ;;;
  if negb (truthy user_id) then
    ret (VStr "No memories could be retrieved as the user is not identified.")
  else
    try_except
      (let* memory_results := similarity_search in
       match memory_results with
       | [] => ret (VStr "No relevant long-term memories were found for this user.")
       | _ => ret (VStr ("Here are some potentially relevant facts from past conversations:"
                         ++ nl ++ "- " ++ join (nl ++ "- ") memory_results))
       end)
      (fun e => ret (VStr ("Error: Failed to load long-term memory. Details: " ++ exn_msg e))).

Definition save_memory (user_id fact : value) : M value :=
  if negb (truthy user_id) || negb (truthy fact) then
    ret (VStr "Failed to save memory: User ID or fact was not provided.")
  else
    try_except
      (vector_store_add user_id fact ;;;
       ret (VStr ("Successfully saved memory: '" ++ py_str E fact ++ "'")))
      (fun e => ret (VStr ("Error: Failed to save memory. Details: " ++ exn_msg e))).

(** *** tools/analysis_tools.py *)

(** In this universe of values [json.dumps] of the rows cannot fail, so
    the only failures inside the [try] are the model's. *)
Definition summarize_results (question query_result : value) : M value :=
  lift (sliceable question) ;;;
  if negb (truthy query_result) then
    ret (VStr "The query returned no data. There is nothing to summarize.")
  else
    try_except
      (let* summary := invoke_chat_completion in
       if negb (truthy summary)
       then raise (Exn ValueError "LLM failed to generate a summary.")
       else ret summary)
      (fun e => ret (VStr ("Error: Failed to generate summary. Details: " ++ exn_msg e))).

(** [data[0].keys()]: the first item of the data must be a mapping. *)
Definition data_preview (data : value) : res unit :=
  match data with
  | VList (VDict _ :: _) => Ok tt
  | _ => Raise (Exn AttributeError "object has no attribute 'keys'")
  end.

Definition plan_visualizations (question data : value) : M (gmap string value) :=
  lift (sliceable question) ;;;
  if negb (truthy data) then
    ret {[ "error" := VStr "No data available to create a visualization plan." ]}
  else
    try_except
      (lift (data_preview data) ;;;
       let* response_str := invoke_chat_completion in
       if negb (truthy response_str)
       then raise (Exn ValueError "LLM returned no response for visualization plan.")
       else match response_str with
            | VStr s =>
                let* validated_plan := lift (model_validate_json E s) in
                ret {[ "plan" := validated_plan ]}
            | _ => raise (Exn TypeError "model_validate_json expects a string")
            end)
      (fun e =>
         let error_message :=
           match exn_cls e with
           | ValidationError =>
               "LLM returned an invalid JSON structure for the visualization plan. Details: "
               ++ exn_msg e
           | _ => "An unexpected error occurred in plan_visualizations: " ++ exn_msg e
           end in
         ret {[ "error" := VStr error_message; "plan" := VNone ]}).

(** *** agents/nodes.py *)

(** [f"{msg.type}: {msg.content}"]: a chat message is an object with the
    attributes [type] and [content], kept here as a dictionary value. *)
Definition message_line (msg : value) : res string :=
  match msg with
  | VDict d =>
      match assoc "type" d, assoc "content" d with
      | Some t, Some c => Ok (py_str E t ++ ": " ++ py_str E c)
      | _, _ => Raise (Exn AttributeError "object has no attribute 'type'")
      end
  | _ => Raise (Exn AttributeError "object has no attribute 'type'")
  end.

Fixpoint message_lines (msgs : list value) : res (list string) :=
  match msgs with
  | [] => Ok []
  | m :: ms =>
      match message_line m with
      | Raise e => Raise e
      | Ok line =>
          match message_lines ms with
          | Raise e => Raise e
          | Ok lines => Ok (line :: lines)
          end
      end
  end.

(** ["\n".join([f"{msg.type}: {msg.content}" for msg in chat_history])] *)
Definition chat_history_str (chat_history : value) : res string :=
  match iterate chat_history with
  | Raise e => Raise e
  | Ok msgs =>
      match message_lines msgs with
      | Raise e => Raise e
      | Ok lines => Ok (join nl lines)
      end
  end.

(** The prompt text handed to the model is not kept: the model is the
    sequence of replies [llm E], over which every theorem quantifies, so a
    model whose replies depend on the prompt is one of its instances.
    What building the prompt can raise is kept. *)
Definition router_node (state : gmap string value) : M (gmap string value) :=
  let question := get state "question" in
  lift (chat_history_str (get_or state "chat_history" (VList []))) ;;;
  let* response_str := invoke_chat_completion in
  let* routing_result := lift (loads response_str) in
  let* next_node := lift (value_get routing_result "route" (VStr "general_conversation")) in
  ret {[ "next_node" := next_node ]}.

Definition direct_response_node (state : gmap string value) : M (gmap string value) :=
  lift (chat_history_str (get_or state "chat_history" (VList []))) ;;;
  item state "question" ;;;
  let* response := invoke_chat_completion in
  ret {[ "summary" := response ]}.

Definition schema_linking_node (state : gmap string value) : M (gmap string value) :=
  let question := get state "question" in
  let* schema := get_relevant_schema question in
  let* examples := get_few_shot_examples question in
  ret {[ "retrieved_schema" := schema; "few_shot_examples" := examples ]}.

Definition query_generation_node (state : gmap string value) : M (gmap string value) :=
  item state "question" ;;;
  item state "retrieved_schema" ;;;
  item state "few_shot_examples" ;;;
  let* sql_query := invoke_chat_completion in
  let* cleaned_sql := lift (clean_sql sql_query) in
  ret {[ "generated_sql" := VStr cleaned_sql ]}.

Definition query_execution_node (state : gmap string value) : M (gmap string value) :=
  let sql_query := get state "generated_sql" in
  let* result := execute_sql_query sql_query in
  ret {[ "query_result" := get result "query_result";
         "sql_error" := get result "sql_error";
         "generated_sql" := sql_query ]}.

Definition self_correction_node (state : gmap string value) : M (gmap string value) :=
  item state "question" ;;;
  item state "generated_sql" ;;;
  item state "sql_error" ;;;
  item state "retrieved_schema" ;;;
  let* corrected_sql := invoke_chat_completion in
  let* cleaned_sql := lift (clean_sql corrected_sql) in
  ret {[ "generated_sql" := VStr cleaned_sql; "sql_error" := VNone ]}.

Definition summarization_node (state : gmap string value) : M (gmap string value) :=
  let query_result := get state "query_result" in
  if negb (truthy query_result) then
    ret {[ "summary" := VStr "The query returned no data to summarize." ]}
  else
    let* question := item state "question" in
    let* summary := summarize_results question query_result in
    ret {[ "summary" := summary ]}.

Definition visualization_planning_node (state : gmap string value) : M (gmap string value) :=
  let query_result := get state "query_result" in
  if negb (truthy query_result) then
    ret {[ "visualization_plan" := VNone ]}
  else
    let* question := item state "question" in
    let* plan_result := plan_visualizations question query_result in
    ret {[ "visualization_plan" := get plan_result "plan" ]}.

(** The loop of [figure_generation_node]: a chart whose figure comes back
    is serialized and appended, the others are skipped. The tool reads
    [chart_plan.get('title')] for its log line before its [try], which
    only a mapping supports. *)
Fixpoint figures (charts : list value) (data : value) : res (list value) :=
  match charts with
  | [] => Ok []
  | chart_plan :: rest =>
      match chart_plan with
      | VDict _ =>
          match figures rest data with
          | Raise e => Raise e
          | Ok figs =>
              match render E chart_plan data with
              | Some fig => Ok (VStr fig :: figs)
              | None => Ok figs
              end
          end
      | _ => Raise (Exn AttributeError "object has no attribute 'get'")
      end
  end.

Definition figure_generation_node (state : gmap string value) : M (gmap string value) :=
  let plan := get state "visualization_plan" in
  let data := get state "query_result" in
  if negb (truthy plan) then ret {[ "plotly_figure_json" := VList [] ]}
  else
    let* charts := lift (value_get plan "charts" VNone) in
    if negb (truthy charts) || negb (truthy data) then
      ret {[ "plotly_figure_json" := VList [] ]}
    else
      let* chart_plans := lift (iterate charts) in
      let* figures_as_json := lift (figures chart_plans data) in
      ret {[ "plotly_figure_json" := VList figures_as_json ]}.

Definition load_memory_node (state : gmap string value) : M (gmap string value) :=
  let user_id := get state "user_id" in
  let question := get state "question" in
  if negb (truthy user_id) then
    ret {[ "long_term_memory" := VStr "Long-term memory is disabled for this session." ]}
  else
    let* memory_context := load_memory user_id question in
    ret {[ "long_term_memory" := memory_context ]}.

Definition curate_memory_node (state : gmap string value) : M (gmap string value) :=
  let chat_history := get state "chat_history" in
  if negb (truthy chat_history) then
    ret {[ "facts_to_save" := VList [] ]}
  else
    try_except
      (lift (chat_history_str chat_history) ;;;
       let* response_str := invoke_chat_completion in
       if negb (truthy response_str)
       then raise (Exn ValueError "Memory curation LLM call returned no response.")
       else
         let* curation_result := lift (loads response_str) in
         let* facts := lift (value_get curation_result "facts_to_save" (VList [])) in
         lift (py_len facts) ;;;
         ret {[ "facts_to_save" := facts ]})
      (fun _ => ret {[ "facts_to_save" := VList [] ]}).

(** [for fact in facts_to_save: await save_memory.ainvoke(...)] *)
Fixpoint save_all (user_id : value) (facts : list value) : M unit :=
  match facts with
  | [] => ret tt
  | fact :: rest => save_memory user_id fact ;;; save_all user_id rest
  end.

Definition save_memory_node (state : gmap string value) : M (gmap string value) :=
  let user_id := get state "user_id" in
  let facts_to_save := get state "facts_to_save" in
  if negb (truthy user_id) || negb (truthy facts_to_save) then
    ret ∅
  else
    let* facts := lift (iterate facts_to_save) in
    save_all user_id facts ;;;
    ret ∅.

End Agent.

(** ** core/agent.py: the graph *)

Inductive node : Type :=
| Router | DirectResponse | LoadMemory | SchemaLinking | QueryGeneration
| QueryExecution | SelfCorrection | Summarization
| PlanVisualization | FigureGeneration | CurateMemory | SaveMemory.

(** The names under which [create_agent_graph] registers the steps. *)
Definition node_name (n : node) : string :=
  match n with
  | Router => "router"
  | DirectResponse => "direct_response"
  | LoadMemory => "load_memory"
  | SchemaLinking => "schema_linking"
  | QueryGeneration => "query_generation"
  | QueryExecution => "query_execution"
  | SelfCorrection => "self_correction"
  | Summarization => "summarization"
  | PlanVisualization => "plan_visualization"
  | FigureGeneration => "figure_generation"
  | CurateMemory => "curate_memory"
  | SaveMemory => "save_memory"
  end.

Definition node_fn (E : env) (n : node) : gmap string value -> M (gmap string value) :=
  match n with
  | Router => router_node E
  | DirectResponse => direct_response_node E
  | LoadMemory => load_memory_node E
  | SchemaLinking => schema_linking_node E
  | QueryGeneration => query_generation_node E
  | QueryExecution => query_execution_node E
  | SelfCorrection => self_correction_node E
  | Summarization => summarization_node E
  | PlanVisualization => visualization_planning_node E
  | FigureGeneration => figure_generation_node E
  | CurateMemory => curate_memory_node E
  | SaveMemory => save_memory_node E
  end.

(** Conditional edge: route to self-correction on error, else summarize. *)
Definition should_continue_to_summarization (state : gmap string value) : string :=
  if truthy (get state "sql_error") then "self_correction" else "summarization".

(** Conditional edge: proceed to visualization if there is data, else go
    to memory curation. *)
Definition should_continue_to_visualization (state : gmap string value) : string :=
  if truthy (get state "query_result") then "plan_visualization" else "curate_memory".

(** [lambda s: s["next_node"]], the selector after the router. *)
Definition router_selector (state : gmap string value) : res value :=
  match state !! "next_node" with
  | Some v => Ok v
  | None => Raise (Exn KeyError "next_node")
  end.

Inductive target : Type :=
| Goto (n : node)
| END.

Inductive edge : Type :=
| Direct (t : target)
| Conditional (selector : gmap string value -> res value)
              (path_map : list (string * target)).

(** The wiring of [create_agent_graph]: [add_edge] and
    [add_conditional_edges] with their path maps. *)
Definition edges (n : node) : edge :=
  match n with
  | Router =>
      Conditional router_selector
        [("general_conversation", Goto DirectResponse); ("sql_query", Goto LoadMemory)]
  | DirectResponse => Direct (Goto CurateMemory)
  | LoadMemory => Direct (Goto SchemaLinking)
  | SchemaLinking => Direct (Goto QueryGeneration)
  | QueryGeneration => Direct (Goto QueryExecution)
  | QueryExecution =>
      Conditional (fun s => Ok (VStr (should_continue_to_summarization s)))
        [("self_correction", Goto SelfCorrection); ("summarization", Goto Summarization)]
  | SelfCorrection => Direct (Goto QueryExecution)
  | Summarization =>
      Conditional (fun s => Ok (VStr (should_continue_to_visualization s)))
        [("plan_visualization", Goto PlanVisualization); ("curate_memory", Goto CurateMemory)]
  | PlanVisualization => Direct (Goto FigureGeneration)
  | FigureGeneration => Direct (Goto CurateMemory)
  | CurateMemory => Direct (Goto SaveMemory)
  | SaveMemory => Direct END
  end.

Definition entry_point : node := Router.

(** ** The executor *)

(** Where a turn stands: about to run a step, finished, or aborted. *)
Inductive cursor : Type :=
| At (n : node)
| Done
| Failed (e : exn).

(** [log] holds one event per completed step, the most recent first. *)
Record config : Type := Config {
  cur : cursor;
  st : gmap string value;
  wd : world;
  log : list (node * gmap string value)
}.

(** Modelled from the spec: the executor is LangGraph's, which is not part
    of the repository. A step's partial update is merged by shallow key
    replacement: its keys overwrite, the other keys are untouched. *)
Definition merge (update state : gmap string value) : gmap string value :=
  update ∪ state.

Definition cursor_of (t : target) : cursor :=
  match t with
  | Goto n => At n
  | END => Done
  end.

(** The transition out of step [n], evaluated on the merged state. A label
    that the path map does not list is an error of the turn. *)
Definition next (n : node) (state : gmap string value) : cursor :=
  match edges n with
  | Direct t => cursor_of t
  | Conditional selector path_map =>
      match selector state with
      | Raise e => Failed e
      | Ok (VStr label) =>
          match assoc label path_map with
          | Some t => cursor_of t
          | None => Failed (Exn KeyError label)
          end
      | Ok _ => Failed (Exn KeyError "unhashable or unknown route")
      end
  end.

(** Modelled from the spec: one step of the executor. The step at the
    cursor runs; if it returns, its update is merged, the event is logged
    and the outgoing edge picks the next cursor; if the step or the edge
    raises, the turn is aborted and the last merged state stays. *)
Definition step (E : env) (c : config) : config :=
  match cur c with
  | At n =>
      match node_fn E n (st c) (wd c) with
      | (Ok update, w') =>
          let state' := merge update (st c) in
          match next n state' with
          | Failed e => Config (Failed e) (st c) w' (log c)
          | c' => Config c' state' w' ((n, update) :: log c)
          end
      | (Raise e, w') => Config (Failed e) (st c) w' (log c)
      end
  | Done | Failed _ => c
  end.

Fixpoint run (E : env) (k : nat) (c : config) : config :=
  match k with
  | O => c
  | S k' => run E k' (step E c)
  end.

(** A turn starts at the entry point with the caller's input. *)
Definition start (input : gmap string value) (w : world) : config :=
  Config (At entry_point) input w [].

(** How many completed steps in a log were step [n]. *)
Definition node_eqb (a b : node) : bool := String.eqb (node_name a) (node_name b).

Definition executions (n : node) (l : list (node * gmap string value)) : nat :=
  List.length (List.filter (fun ev => node_eqb (fst ev) n) l).

(** ** Checkpoints *)



(** ** app/api.py and langgraph_agent_pipe.py: the entry points *)

Record ChatMessage : Type := { role : string; content : string }.

Record ChatRequest : Type := {
  model : string;
  messages : list ChatMessage;
  stream : bool
}.

(** What an entry point hands to the executor: the [thread_id] of its
    [config] and the input mapping. *)
Record invocation : Type := Invocation {
  thread_id : value;
  agent_input : gmap string value
}.

(** [next((msg.content for msg in reversed(messages) if msg.role == 'user'), None)] *)
Definition last_user_message (msgs : list ChatMessage) : option string :=
  match List.filter (fun msg => String.eqb (role msg) "user") (rev msgs) with
  | msg :: _ => Some (content msg)
  | [] => None
  end.

(** [HumanMessage(content=...)] for a user message, [AIMessage(content=...)] otherwise. *)
Definition to_message (msg : ChatMessage) : value :=
  VDict [("type", VStr (if String.eqb (role msg) "user" then "human" else "ai"));
         ("content", VStr (content msg))].

(** [chat_completions] of [app/api.py], up to the call of the executor.
    [uuid4] is the identifier that [uuid.uuid4()] draws for this request;
    [ready] tells whether the checkpointer was initialised. *)
Definition chat_completions (ready : bool) (uuid4 : string) (request : ChatRequest)
  : res invocation :=
  if negb ready then Raise (Exn HTTPException "Checkpointer not initialized.")
  else
    match last_user_message (messages request) with
    | None => Raise (Exn HTTPException "No user message found.")
    | Some EmptyString => Raise (Exn HTTPException "No user message found.")
    | Some last =>
        let user_id := "open-webui-user" in
        let thread_id := uuid4 in
        let history := map to_message (messages request) in
        Ok (Invocation (VStr thread_id)
              {[ "question" := VStr last;
                 "chat_history" := VList history;
                 "user_id" := VStr user_id;
                 "user_response" := VStr "approve" ]})
    end.

(** [Pipeline.pipe] of [langgraph_agent_pipe.py], up to the call of the
    executor: the conversation id of the request body is the thread id. *)
Definition pipe (body : gmap string value) : res invocation :=
  let messages := get_or body "messages" (VList []) in
  let question : res value :=
    if truthy messages then
      match messages with
      | VList l =>
          match last l with
          | Some (VDict d) => Ok (default (VStr EmptyString) (assoc "content" d))
          | _ => Raise (Exn AttributeError "object has no attribute 'get'")
          end
      | _ => Raise (Exn TypeError "object is not subscriptable by -1")
      end
    else Ok (VStr EmptyString) in
  match question with
  | Raise e => Raise e
  | Ok q =>
      let thread_id := get_or body "conversation_id" (VStr "default-thread") in
      Ok (Invocation thread_id {[ "question" := q; "user_id" := thread_id ]})
  end.

(** ** Notions used to state the properties *)








(** ** Sample collaborators, used to run the definitions *)

Definition row_sum : value := VDict [("sum", VInt 12345)].

Definition quoted (s : string) : string :=
  String (ascii_of_nat 34) s ++ String (ascii_of_nat 34) EmptyString.

(** The text of a JSON object with the single key [route]. *)
Definition route_json (label : string) : string :=
  "{" ++ quoted "route" ++ ": " ++ quoted label ++ "}".

(** A decoder that knows the two well-formed router replies and one with a
    label outside the route list; any other text is not JSON for it. *)
Definition sample_loads (s : string) : res value :=
  if String.eqb s (route_json "sql_query") then Ok (VDict [("route", VStr "sql_query")])
  else if String.eqb s (route_json "general_conversation")
       then Ok (VDict [("route", VStr "general_conversation")])
  else if String.eqb s (route_json "data_analysis")
       then Ok (VDict [("route", VStr "data_analysis")])
  else Raise (Exn JSONDecodeError "Expecting value").

(** A database on which the first attempt fails and the later ones return
    one row; a model that always answers with a query. *)
Definition env_second_try : env :=
  Env (fun _ => Reply "SELECT SUM(total_revenue) FROM sales")
      (fun n q => if (n =? 0)%nat
                  then ExecuteFailed (Exn PsycopgError "column does not exist")
                  else Fetched [row_sum])
      (fun _ => Hits ["Table: sales"])
      (fun _ => None)
      sample_loads
      (fun _ => Raise (Exn ValidationError "invalid plan"))
      (fun _ _ => None)
      (fun _ => EmptyString).

(** A model that first picks the SQL route and then writes queries. *)
Definition env_sql_route : env :=
  Env (fun n => if (n =? 0)%nat then Reply (route_json "sql_query")
                else Reply "SELECT SUM(total_revenue) FROM sales")
      (db env_second_try) (search env_second_try) (add_documents env_second_try)
      sample_loads (model_validate_json env_second_try)
      (render env_second_try) (py_str env_second_try).

(** A model whose router reply names a route outside the route list. *)
Definition env_unknown_route : env :=
  Env (fun _ => Reply (route_json "data_analysis"))
      (db env_second_try) (search env_second_try) (add_documents env_second_try)
      sample_loads (model_validate_json env_second_try)
      (render env_second_try) (py_str env_second_try).

(** A model whose replies are not JSON. *)
Definition env_prose : env :=
  Env (fun _ => Reply "I think this needs the database.")
      (db env_second_try) (search env_second_try) (add_documents env_second_try)
      sample_loads (model_validate_json env_second_try)
      (render env_second_try) (py_str env_second_try).

(** A database on which every attempt fails. *)
Definition env_always_failing : env :=
  Env (fun _ => Reply "SELECT total FROM sales")
      (fun _ _ => ExecuteFailed (Exn PsycopgError "column total does not exist"))
      (search env_second_try) (add_documents env_second_try)
      sample_loads (model_validate_json env_second_try)
      (render env_second_try) (py_str env_second_try).

Definition sample_input : gmap string value :=
  {[ "question" := VStr "What were total sales last month?" ]}.

(** The state of a turn on the SQL path when it first reaches execution. *)
Definition sample_sql_state : gmap string value :=
  {[ "question" := VStr "What were total sales last month?";
     "retrieved_schema" := VStr "Table: sales";
     "generated_sql" := VStr "SELECT total FROM sales" ]}.

Definition user_msg (text : string) : ChatMessage := {| role := "user"; content := text |}.
Definition assistant_msg (text : string) : ChatMessage :=
  {| role := "assistant"; content := text |}.


(** The follow-up request of the same conversation: the earlier messages
    and one more question. *)
Definition second_request : ChatRequest :=
  {| model := "agent";
     messages := [user_msg "What were total sales?";
                  assistant_msg "Total sales were 12345.";
                  user_msg "And the month before?"];
     stream := true |}.


(** The two shapes a result of [execute_sql_query] can have. *)
Inductive sql_shape : gmap string value -> Prop :=
| shape_error msg : sql_shape (sql_result VNone (VStr msg))
| shape_rows rows : sql_shape (sql_result (VList rows) VNone).


(** A database that accepts whatever reaches it. *)
Definition env_accepting : env :=
  Env (llm env_second_try) (fun _ _ => Fetched [row_sum])
      (search env_second_try) (add_documents env_second_try)
      sample_loads (model_validate_json env_second_try)
      (render env_second_try) (py_str env_second_try).

(** The cursors from which only memory curation and saving remain. *)
Definition tail_phase (c : cursor) : bool :=
  match c with
  | At CurateMemory | At SaveMemory | Done | Failed _ => true
  | At _ => false
  end.


(** A state at the summarization step after a query that returned no row. *)
Definition sample_empty_result : config :=
  Config (At Summarization)
         {[ "question" := VStr "What were total sales last month?";
            "query_result" := VList [];
            "sql_error" := VNone ]}
         world0 [].


(** Every execution attempt recorded in a log left a truthy [sql_error]. *)
Definition all_attempts_failed (l : list (node * gmap string value)) : Prop :=
  Forall (fun ev => fst ev = QueryExecution -> truthy (get (snd ev) "sql_error") = true) l.

(** The bookkeeping of the execution/correction cycle: up to and
    including the cursor at query_execution every attempt so far failed and
    was followed by a correction; at self_correction one attempt is still
    waiting for its correction. *)
Definition balanced (c : config) : Prop :=
  match cur c with
  | At Router | At LoadMemory | At SchemaLinking | At QueryGeneration | At QueryExecution =>
      all_attempts_failed (log c) /\
      executions QueryExecution (log c) = executions SelfCorrection (log c)
  | At SelfCorrection =>
      all_attempts_failed (log c) /\
      executions QueryExecution (log c) = S (executions SelfCorrection (log c))
  | _ => True
  end.

(** A turn standing at its first execution attempt. *)
Definition sample_at_execution : config :=
  Config (At QueryExecution) sample_sql_state world0
         [(QueryGeneration, {[ "generated_sql" := VStr "SELECT total FROM sales" ]})].


(** ** core/llm.py: the retrying model client *)

Module LlmClient.

(** What one call of [client.chat.complete_async] gives: a response whose
    first choice has a content, a response without choices, or an
    exception. *)
Inductive api_outcome : Type :=
| ApiContent (text : string)
| ApiNoChoices
| ApiError (e : exn).

(** The messages that carry both a [role] and a [content]. *)
Definition chat_messages (messages : list (list (string * value)))
  : list (list (string * value)) :=
  List.filter (fun msg => match assoc "role" msg, assoc "content" msg with
                          | Some _, Some _ => true
                          | _, _ => false
                          end) messages.

(** The body of [invoke_chat_completion], one attempt: the reply and the
    number of API calls it made. [n] numbers the API call. *)
Definition attempt (api : nat -> api_outcome) (messages : list (list (string * value)))
           (n : nat) : llm_reply * nat :=
  match chat_messages messages with
  | [] => (NoReply, 0)
  | _ :: _ =>
      match api n with
      | ApiContent text => (Reply text, 1)
      | ApiNoChoices => (NoReply, 1)
      | ApiError e => (LlmFail e, 1)
      end
  end.

(** The [retry] decorator with [stop_after_attempt(k)] and [reraise]: an
    attempt that raises is repeated until [k] attempts were made, and the
    last exception is raised again. *)
Fixpoint retry (k : nat) (api : nat -> api_outcome)
         (messages : list (list (string * value))) (n : nat) : llm_reply * nat :=
  match k with
  | O => (NoReply, 0)
  | S k' =>
      match attempt api messages n with
      | (LlmFail e, used) =>
          match k' with
          | O => (LlmFail e, used)
          | S _ => let (r, more) := retry k' api messages (n + used) in (r, used + more)
          end
      | (r, used) => (r, used)
      end
  end.

Definition invoke_chat_completion (api : nat -> api_outcome)
           (messages : list (list (string * value))) (n : nat) : llm_reply * nat :=
  retry 4 api messages n.

End LlmClient.

(** ** core/db.py: the connection pool *)

Module Db.

(** What opening and checking a new pool gives. *)
Inductive open_outcome : Type :=
| Opened
| OpenFailed (e : exn).

(** The loop of [initialize_db_pool] from attempt [attempt] on, with
    [remaining] attempts left: the global pool afterwards (a pool is named
    by the attempt that opened it) or the exception, and the seconds
    slept. *)
Fixpoint connect_loop (opens : nat -> open_outcome) (retry_delay attempt remaining : nat)
         (db_pool : option nat) : res (option nat) * nat :=
  match remaining with
  | O => (Ok db_pool, 0)
  | S rest =>
      match opens attempt with
      | Opened => (Ok (Some attempt), 0)
      | OpenFailed e =>
          match rest with
          | O => (Raise (Exn ConnectionError "Failed to initialize database pool."), 0)
          | S _ =>
              let (r, slept) := connect_loop opens retry_delay (S attempt) rest db_pool in
              (r, retry_delay + slept)
          end
      end
  end.

(** [initialize_db_pool(startup_retries, retry_delay)]; [url_ok] tells
    whether the connection URL could be parsed. *)
Definition initialize_db_pool (url_ok : bool) (opens : nat -> open_outcome)
           (startup_retries retry_delay : nat) (db_pool : option nat)
  : res (option nat) * nat :=
  if url_ok then connect_loop opens retry_delay 1 startup_retries db_pool
  else (Raise (Exn ValueError "Invalid DATABASE_URL format"), 0).

(** [get_db_connection]: without a pool it raises; with one, taking a
    connection may still raise (a pool timeout). *)
Definition get_db_connection (db_pool : option nat) (acquire : res unit) : res unit :=
  match db_pool with
  | None => Raise (Exn ConnectionError "Database pool is not initialized.")
  | Some _ => acquire
  end.

Definition close_db_pool (db_pool : option nat) : option nat := None.

(** [health_check]: [check] is what [db_pool.check()] does. *)
Definition health_check (db_pool : option nat) (check : res unit) : bool :=
  match db_pool with
  | None => false
  | Some _ => match check with Ok _ => true | Raise _ => false end
  end.

(** The database as [execute_sql_query] meets it through the pool: the
    connection is taken first, and only then the query runs. *)
Definition through_pool (db_pool : option nat) (acquire : nat -> res unit)
           (inner : nat -> string -> db_outcome) : nat -> string -> db_outcome :=
  fun n q => match get_db_connection db_pool (acquire n) with
             | Raise e => ConnectFailed e
             | Ok _ => inner n q
             end.

End Db.

(** The environment [E] with another database. *)
Definition with_db (E : env) (d : nat -> string -> db_outcome) : env :=
  Env (llm E) d (search E) (add_documents E) (json_loads E)
      (model_validate_json E) (render E) (py_str E).

(** ** The consumers of the event stream *)



(** ** app/main.py: the standalone server *)

Module Main.

(** [str(v)] of a string is the string itself. *)
Definition format_value (E : env) (v : value) : string :=
  match v with
  | VStr s => s
  | _ => py_str E v
  end.

(** [chat_completions] of [app/main.py], up to the call of the executor;
    [ready] tells whether the executor was compiled at startup. *)
Definition chat_completions (E : env) (ready : bool) (body : gmap string value)
  : res invocation :=
  if negb ready then Raise (Exn HTTPException "Agent is not available. Please check server logs.")
  else
    let messages := get_or body "messages" (VList []) in
    let user_id := get_or body "user" (VStr "default-user") in
    let thread_id := "user-" ++ format_value E user_id in
    let question : res value :=
      if truthy messages then
        match messages with
        | VList l =>
            match last l with
            | Some (VDict d) => Ok (default VNone (assoc "content" d))
            | _ => Raise (Exn AttributeError "object has no attribute 'get'")
            end
        | _ => Raise (Exn TypeError "object is not subscriptable by -1")
        end
      else Ok (VStr EmptyString) in
    match question with
    | Raise e => Raise e
    | Ok q =>
        if negb (truthy q) then Raise (Exn HTTPException "No question found in the request.")
        else Ok (Invocation (VStr thread_id) {[ "question" := q; "user_id" := user_id ]})
    end.

End Main.

(** ** More notions and samples *)

Definition is_string (v : value) : Prop := exists s, v = VStr s.




(** The last steps of the log, by cursor: a finished turn ran
    curate_memory and then save_memory. *)
Definition memory_tail (c : config) : Prop :=
  match cur c with
  | At SaveMemory => exists u rest, log c = (CurateMemory, u) :: rest
  | Done => exists u u' rest, log c = (SaveMemory, u') :: (CurateMemory, u) :: rest
  | _ => True
  end.

(** An API that fails twice and then answers. *)
Definition api_third_time (n : nat) : LlmClient.api_outcome :=
  if (n <? 2)%nat then LlmClient.ApiError (Exn ModelError "rate limit")
  else LlmClient.ApiContent "SELECT 1".

Definition one_message : list (list (string * value)) :=
  [[("role", VStr "user"); ("content", VStr "hello")]].

(** A database server that refuses the first two pools. *)
Definition opens_third_time (attempt : nat) : Db.open_outcome :=
  if (attempt <? 3)%nat then Db.OpenFailed (Exn ConnectionError "connection refused")
  else Db.Opened.


(** A database that answers every query with no result set. *)
Definition env_no_rows : env := with_db env_second_try (fun _ _ => NoDescription).


(** A state at summarization with one row, and one at plan_visualization. *)
Definition sample_rows_state : gmap string value :=
  {[ "question" := VStr "What were total sales last month?";
     "query_result" := VList [row_sum];
     "sql_error" := VNone ]}.



(** The world after one more model call. *)
Definition asked (w : world) : world :=
  World (S (llm_calls w)) (db_attempts w) (db_log w) (search_calls w) (memory_log w).


(** A model reply from which no visualization plan can be read. *)
Definition unusable_plan_reply (E : env) (r : llm_reply) : Prop :=
  match r with
  | Reply s => s = EmptyString \/ exists e, model_validate_json E s = Raise e
  | NoReply => True
  | LlmFail _ => True
  end.

(** A turn at plan_visualization with one row. *)
Definition sample_at_planning : config :=
  Config (At PlanVisualization) sample_rows_state world0 [].



(** A renderer that knows the kpi chart only. *)
Definition env_renders : env :=
  Env (llm env_second_try) (db env_second_try) (search env_second_try)
      (add_documents env_second_try) sample_loads (model_validate_json env_second_try)
      (fun chart _ => match chart with
                      | VDict d => match assoc "chart_type" d with
                                   | Some (VStr "kpi") => Some "{kpi figure}"
                                   | _ => None
                                   end
                      | _ => None
                      end)
      (py_str env_second_try).

Definition sample_charts : list value :=
  [VDict [("chart_type", VStr "kpi"); ("title", VStr "Total")];
   VDict [("chart_type", VStr "radar"); ("title", VStr "Shape")]].

(** A state with a plan of two charts and one row. *)
Definition sample_plan_state : gmap string value :=
  {[ "visualization_plan" := VDict [("charts", VList sample_charts)];
     "query_result" := VList [row_sum] ]}.


(** * Properties *)

(** ** Basic facts *)





Lemma merge_lookup_update (u s : gmap string value) k v :
  u !! k = Some v -> merge u s !! k = Some v.
Proof. intros H. unfold merge. by apply lookup_union_Some_l. Qed.

Lemma merge_lookup_other (u s : gmap string value) k :
  u !! k = None -> merge u s !! k = s !! k.
Proof. intros H. unfold merge. by apply lookup_union_r. Qed.

Lemma truthy_str_false s : truthy (VStr s) = false <-> s = EmptyString.
Proof. destruct s; simpl; split; congruence. Qed.

Lemma run_query_shape E q w :
  (exists r w', run_query E q w = (Ok r, w') /\ sql_shape r) \/
  (exists e w', run_query E q w = (Raise e, w')).
Proof.
  unfold run_query.
  destruct (db E (db_attempts w) q); eauto 6 using shape_rows, shape_error.
Qed.

Lemma execute_sql_query_shape E sql_query w :
  exists r w', execute_sql_query E sql_query w = (Ok r, w') /\ sql_shape r.
Proof.
  unfold execute_sql_query.
  destruct sql_query; try (do 2 eexists; split; [reflexivity | apply shape_error]).
  destruct (negb (truthy (VStr (PyStr.strip s)))).
  { do 2 eexists; split; [reflexivity | apply shape_error]. }
  destruct (negb (PyStr.startswith (PyStr.upper (PyStr.strip s)) "SELECT")).
  { do 2 eexists; split; [reflexivity | apply shape_error]. }
  unfold try_except.
  destruct (run_query_shape E s w) as [(r & w' & Hr & Hs) | (e & w' & Hr)]; rewrite Hr.
  - eauto.
  - do 2 eexists; split; [reflexivity | apply shape_error].
Qed.


(** ** The SELECT check of [execute_sql_query] *)

Lemma startswith_nonempty s p :
  PyStr.startswith s p = true -> p <> EmptyString -> truthy (VStr s) = true.
Proof.
  unfold PyStr.startswith. destruct s; simpl; [| reflexivity].
  destruct p; [congruence | discriminate].
Qed.




(** ** Routing after execution *)

Lemma query_execution_node_spec E s w :
  exists r w',
    execute_sql_query E (get s "generated_sql") w = (Ok r, w') /\
    sql_shape r /\
    query_execution_node E s w
    = (Ok {[ "query_result" := get r "query_result";
             "sql_error" := get r "sql_error";
             "generated_sql" := get s "generated_sql" ]}, w').
Proof.
  destruct (execute_sql_query_shape E (get s "generated_sql") w) as (r & w' & Hrun & Hshape).
  exists r, w'. split; [exact Hrun |]. split; [exact Hshape |].
  unfold query_execution_node, bind. rewrite Hrun. reflexivity.
Qed.

Lemma next_query_execution s :
  next QueryExecution s
  = if truthy (get s "sql_error") then At SelfCorrection else At Summarization.
Proof.
  unfold next, edges, should_continue_to_summarization.
  destruct (truthy (get s "sql_error")); reflexivity.
Qed.

Lemma next_summarization s :
  next Summarization s
  = if truthy (get s "query_result") then At PlanVisualization else At CurateMemory.
Proof.
  unfold next, edges, should_continue_to_visualization.
  destruct (truthy (get s "query_result")); reflexivity.
Qed.

(** C2. For every state produced by the query_execution step, the
    selector [should_continue_to_summarization] answers self_correction
    exactly when [sql_error] is truthy and summarization otherwise, the
    conditional edge follows that answer, the field is [None] or a string,
    and no other field is consulted: a state with the same [sql_error]
    gets the same answer. *)
Theorem post_execution_routing (E : env) (s : gmap string value) (w : world)
        (update : gmap string value) (w' : world) :
  query_execution_node E s w = (Ok update, w') ->
  let s' := merge update s in
  (should_continue_to_summarization s' = "self_correction"
   <-> truthy (get s' "sql_error") = true) /\
  (should_continue_to_summarization s' = "summarization"
   <-> truthy (get s' "sql_error") = false) /\
  next QueryExecution s'
  = (if truthy (get s' "sql_error") then At SelfCorrection else At Summarization) /\
  (get s' "sql_error" = VNone \/ exists msg, get s' "sql_error" = VStr msg) /\
  (forall t : gmap string value,
      t !! "sql_error" = s' !! "sql_error" ->
      should_continue_to_summarization t = should_continue_to_summarization s').
Proof.
  intros Hnode s'.
  destruct (query_execution_node_spec E s w) as (r & w1 & _ & Hshape & Hspec).
  rewrite Hspec in Hnode. injection Hnode as Hupd _.
  repeat split.
  - unfold should_continue_to_summarization.
    destruct (truthy (get s' "sql_error")); [reflexivity | discriminate].
  - unfold should_continue_to_summarization.
    destruct (truthy (get s' "sql_error")); [reflexivity | discriminate].
  - unfold should_continue_to_summarization.
    destruct (truthy (get s' "sql_error")); [discriminate | reflexivity].
  - unfold should_continue_to_summarization.
    destruct (truthy (get s' "sql_error")); [discriminate | reflexivity].
  - apply next_query_execution.
  - assert (Herr : s' !! "sql_error" = Some (get r "sql_error")).
    { apply merge_lookup_update. rewrite <- Hupd. reflexivity. }
    destruct Hshape as [msg | rows]; [right; exists msg | left];
      unfold get; rewrite Herr; reflexivity.
  - intros t Ht. unfold should_continue_to_summarization, get. rewrite Ht. reflexivity.
Qed.

(** A failing attempt is routed to self_correction. *)
Lemma post_execution_routing_witness :
  exists update w',
    query_execution_node env_always_failing sample_sql_state world0 = (Ok update, w') /\
    next QueryExecution (merge update sample_sql_state) = At SelfCorrection.
Proof.
  destruct (query_execution_node_spec env_always_failing sample_sql_state world0)
    as (r & w1 & Hrun & _ & Hnode).
  eexists _, w1. split; [exact Hnode |].
  destruct (post_execution_routing _ _ _ _ _ Hnode) as (_ & _ & Hnext & _).
  rewrite Hnext. vm_compute in Hrun. injection Hrun as <- _. reflexivity.
Defined.

(** ** The tail of a turn *)

Lemma run_step E k c : run E (S k) c = run E k (step E c).
Proof. reflexivity. Qed.

Lemma run_add E j k c : run E (j + k) c = run E k (run E j c).
Proof. revert c. induction j as [| j IH]; intros c; [reflexivity | apply IH]. Qed.

Lemma step_halted E c : (forall n, cur c <> At n) -> step E c = c.
Proof.
  intros H. unfold step. destruct (cur c) as [n | | e] eqn:Hc; try reflexivity.
  exfalso. apply (H n). reflexivity.
Qed.

Lemma step_tail_phase E c :
  tail_phase (cur c) = true ->
  tail_phase (cur (step E c)) = true /\
  (forall n, n <> CurateMemory -> n <> SaveMemory ->
             executions n (log (step E c)) = executions n (log c)).
Proof.
  intros Ht. unfold step.
  destruct (cur c) as [n | | e] eqn:Hc; try (rewrite Hc; split; [exact Ht | reflexivity]).
  destruct n; try discriminate Ht;
    destruct (node_fn E _ (st c) (wd c)) as [[u | e] w']; simpl;
      (split; [reflexivity | intros n Hn1 Hn2; destruct n; try reflexivity; congruence]).
Qed.

Lemma run_tail_phase E k c :
  tail_phase (cur c) = true ->
  tail_phase (cur (run E k c)) = true /\
  (forall n, n <> CurateMemory -> n <> SaveMemory ->
             executions n (log (run E k c)) = executions n (log c)).
Proof.
  revert c. induction k as [| k IH]; intros c Ht; [split; [exact Ht | reflexivity] |].
  rewrite run_step. destruct (step_tail_phase E c Ht) as [Ht' Hlog'].
  destruct (IH _ Ht') as [Ht'' Hlog'']. split; [exact Ht'' |].
  intros n Hn1 Hn2. rewrite Hlog'', Hlog'; auto.
Qed.

(** ** The steps that never raise *)

Lemma bind_lift_ok {A B} (a : A) (k : A -> M B) (w : world) :
  bind (lift (Ok a)) k w = k a w.
Proof. reflexivity. Qed.

Lemma try_except_returns {A} (body : M A) (handler : exn -> M A) (w : world) :
  (forall e w1, exists a w2, handler e w1 = (Ok a, w2)) ->
  exists a w', try_except body handler w = (Ok a, w').
Proof.
  intros Hh. unfold try_except. destruct (body w) as [[a | e] w1]; eauto.
Qed.



Lemma curate_memory_node_returns E s w :
  exists update w', curate_memory_node E s w = (Ok update, w').
Proof.
  unfold curate_memory_node.
  destruct (negb (truthy (get s "chat_history"))); [eauto |].
  unfold try_except.
  match goal with |- context [match ?body w with _ => _ end] => destruct (body w) as [[u | e] w'] end;
    eauto.
Qed.

(** ** Saving memory changes no field *)



(** ** No data, no visualization *)

(** C4. At the summarization step, when [query_result] is empty or
    [None] (falsy), the summary says that the query returned no data, the
    edge after summarization goes to curate_memory, and from there on the
    turn never stands at plan_visualization (nor at figure_generation)
    and never logs such a step. *)
Theorem no_data_short_circuit (E : env) (c : config) :
  cur c = At Summarization ->
  truthy (get (st c) "query_result") = false ->
  cur (step E c) = At CurateMemory /\
  st (step E c) !! "summary" = Some (VStr "The query returned no data to summarize.") /\
  wd (step E c) = wd c /\
  (forall k, cur (run E k c) <> At PlanVisualization /\
             cur (run E k c) <> At FigureGeneration) /\
  (forall k, executions PlanVisualization (log (run E k c))
             = executions PlanVisualization (log c)).
Proof.
  intros Hcur Hempty.
  assert (Hstep : step E c
                  = Config (At CurateMemory)
                      (merge {[ "summary" := VStr "The query returned no data to summarize." ]} (st c))
                      (wd c)
                      ((Summarization,
                        {[ "summary" := VStr "The query returned no data to summarize." ]}) :: log c)).
  { unfold step. rewrite Hcur. simpl. unfold summarization_node. rewrite Hempty. simpl.
    rewrite next_summarization.
    assert (Hq : get (merge {[ "summary" := VStr "The query returned no data to summarize." ]} (st c))
                     "query_result" = get (st c) "query_result").
    { unfold get. rewrite merge_lookup_other; reflexivity. }
    rewrite Hq, Hempty. reflexivity. }
  rewrite Hstep. simpl.
  split; [reflexivity |]. split; [apply merge_lookup_update; reflexivity |].
  split; [reflexivity |].
  assert (Htail : tail_phase (cur (step E c)) = true) by (rewrite Hstep; reflexivity).
  split.
  - intros [| k]; simpl; [rewrite Hcur; split; discriminate |].
    destruct (run_tail_phase E k _ Htail) as [Ht _].
    split; intros Heq; rewrite Heq in Ht; discriminate.
  - intros [| k]; [reflexivity |]. simpl.
    destruct (run_tail_phase E k _ Htail) as [_ Hlog].
    rewrite Hlog by discriminate. rewrite Hstep. reflexivity.
Qed.

(** A query that returned no row. *)
Lemma no_data_short_circuit_witness :
  cur (step env_second_try sample_empty_result) = At CurateMemory /\
  st (step env_second_try sample_empty_result) !! "summary"
  = Some (VStr "The query returned no data to summarize.").
Proof.
  destruct (no_data_short_circuit env_second_try sample_empty_result eq_refl eq_refl)
    as (Hcur & Hsummary & _).
  split; [exact Hcur | exact Hsummary].
Defined.

(** ** The router *)

Lemma router_node_decoded E s w h reply decoded :
  chat_history_str E (get_or s "chat_history" (VList [])) = Ok h ->
  llm E (llm_calls w) = Reply reply ->
  json_loads E reply = Ok (VDict decoded) ->
  router_node E s w
  = (Ok {[ "next_node" := default (VStr "general_conversation") (assoc "route" decoded) ]},
     World (S (llm_calls w)) (db_attempts w) (db_log w) (search_calls w) (memory_log w)).
Proof.
  intros Hh Hllm Hjson.
  unfold router_node, bind, lift, invoke_chat_completion. rewrite Hh, Hllm. simpl.
  rewrite Hjson. reflexivity.
Qed.

Lemma next_router s label :
  s !! "next_node" = Some (VStr label) ->
  next Router s
  = match assoc label [("general_conversation", Goto DirectResponse);
                       ("sql_query", Goto LoadMemory)] with
    | Some t => cursor_of t
    | None => Failed (Exn KeyError label)
    end.
Proof. intros H. unfold next, edges, router_selector. rewrite H. reflexivity. Qed.

(** The default of the router covers a reply without the key [route]:
    the turn goes to direct_response. *)
Lemma missing_route_defaults E s w h reply decoded :
  chat_history_str E (get_or s "chat_history" (VList [])) = Ok h ->
  llm E (llm_calls w) = Reply reply ->
  json_loads E reply = Ok (VDict decoded) ->
  assoc "route" decoded = None ->
  cur (step E (start s w)) = At DirectResponse.
Proof.
  intros Hh Hllm Hjson Hroute.
  unfold step, start. simpl.
  rewrite (router_node_decoded E s w h reply decoded Hh Hllm Hjson), Hroute.
  unfold entry_point.
  rewrite (next_router _ "general_conversation") by (apply merge_lookup_update; reflexivity).
  reflexivity.
Qed.

(** C5 (the code at the failing input). A router reply whose [route] is a
    label outside the route list is not sent to direct_response: the label
    is returned as it is, the path map of the conditional edge does not
    list it, and the turn is aborted with no step completed. *)
Theorem unknown_route_aborts (E : env) (s : gmap string value) (w : world)
        (h reply label : string) :
  chat_history_str E (get_or s "chat_history" (VList [])) = Ok h ->
  llm E (llm_calls w) = Reply reply ->
  json_loads E reply = Ok (VDict [("route", VStr label)]) ->
  label <> "general_conversation" ->
  label <> "sql_query" ->
  cur (step E (start s w)) = Failed (Exn KeyError label) /\
  log (step E (start s w)) = [] /\
  forall k, cur (run E k (start s w)) <> At DirectResponse.
Proof.
  intros Hh Hllm Hjson Hg Hq.
  assert (Hstep : cur (step E (start s w)) = Failed (Exn KeyError label) /\
                  log (step E (start s w)) = []).
  { unfold step, start. simpl.
    rewrite (router_node_decoded E s w h reply _ Hh Hllm Hjson). unfold entry_point.
    rewrite (next_router _ label) by (apply merge_lookup_update; reflexivity).
    simpl. apply String.eqb_neq in Hg, Hq. rewrite Hg, Hq. split; reflexivity. }
  destruct Hstep as [Hcur Hlog]. split; [exact Hcur |]. split; [exact Hlog |].
  intros [| k]; [discriminate |]. simpl.
  assert (Ht : tail_phase (cur (step E (start s w))) = true) by (rewrite Hcur; reflexivity).
  destruct (run_tail_phase E k _ Ht) as [Ht' _].
  intros Heq. rewrite Heq in Ht'. discriminate.
Qed.

(** The reply [{"route": "data_analysis"}] aborts the turn. *)
Lemma unknown_route_aborts_witness :
  cur (step env_unknown_route (start sample_input world0))
  = Failed (Exn KeyError "data_analysis").
Proof.
  apply (unknown_route_aborts env_unknown_route sample_input world0
           EmptyString (route_json "data_analysis") "data_analysis");
    first [reflexivity | discriminate].
Defined.

(** C7 (the code at the failing input). A router reply that cannot be
    decoded is not caught at the step boundary: the exception of the
    decoder leaves [router_node] and the turn is aborted before any step
    completes. *)
Theorem router_malformed_reply_aborts (E : env) (s : gmap string value) (w : world)
        (h reply : string) (e : exn) :
  chat_history_str E (get_or s "chat_history" (VList [])) = Ok h ->
  llm E (llm_calls w) = Reply reply ->
  json_loads E reply = Raise e ->
  fst (router_node E s w) = Raise e /\
  cur (step E (start s w)) = Failed e /\
  log (step E (start s w)) = [].
Proof.
  intros Hh Hllm Hjson.
  assert (Hnode : router_node E s w
                  = (Raise e, World (S (llm_calls w)) (db_attempts w) (db_log w)
                                    (search_calls w) (memory_log w))).
  { unfold router_node, bind, lift, invoke_chat_completion. rewrite Hh, Hllm. simpl.
    rewrite Hjson. reflexivity. }
  split; [rewrite Hnode; reflexivity |].
  unfold step, start. simpl. rewrite Hnode. split; reflexivity.
Qed.

(** A reply in prose aborts the turn at the router. *)
Lemma router_malformed_reply_aborts_witness :
  cur (step env_prose (start sample_input world0))
  = Failed (Exn JSONDecodeError "Expecting value").
Proof.
  apply (router_malformed_reply_aborts env_prose sample_input world0
           EmptyString "I think this needs the database.");
    reflexivity.
Defined.

(** The two sibling steps do catch a malformed reply: memory curation
    degrades to an empty fact list, visualization planning to no plan. *)
Lemma curate_memory_degrades E s w reply e :
  truthy (get s "chat_history") = true ->
  llm E (llm_calls w) = Reply reply ->
  json_loads E reply = Raise e ->
  exists w', curate_memory_node E s w = (Ok {[ "facts_to_save" := VList [] ]}, w').
Proof.
  intros Hh Hllm Hjson. unfold curate_memory_node. rewrite Hh. simpl.
  unfold try_except, bind, lift, invoke_chat_completion.
  destruct (chat_history_str E (get s "chat_history")); [| eauto].
  rewrite Hllm. simpl. destruct reply; simpl; [eauto |].
  rewrite Hjson. eauto.
Qed.

Lemma plan_visualizations_returns E question data w :
  sliceable question = Ok tt ->
  exists r w', plan_visualizations E question data w = (Ok r, w').
Proof.
  intros Hq. unfold plan_visualizations. rewrite Hq, bind_lift_ok.
  destruct (negb (truthy data)); [do 2 eexists; reflexivity |].
  apply try_except_returns. intros e w1. do 2 eexists. reflexivity.
Qed.

Lemma plan_visualizations_degrades E question row rows w reply e :
  sliceable question = Ok tt ->
  llm E (llm_calls w) = Reply reply ->
  model_validate_json E reply = Raise e ->
  exists r w',
    plan_visualizations E question (VList (VDict row :: rows)) w = (Ok r, w') /\
    get r "plan" = VNone.
Proof.
  intros Hq Hllm Hval. unfold plan_visualizations, bind, lift. rewrite Hq. simpl.
  unfold try_except, invoke_chat_completion. rewrite Hllm.
  destruct reply; simpl.
  - do 2 eexists. split; [reflexivity | reflexivity].
  - rewrite Hval. do 2 eexists. split; [reflexivity | reflexivity].
Qed.

(** ** Thread identifiers *)





(** ** The execution/correction cycle *)

Lemma step_cases E c n :
  cur c = At n ->
  (exists e w', step E c = Config (Failed e) (st c) w' (log c)) \/
  (exists u w',
      node_fn E n (st c) (wd c) = (Ok u, w') /\
      (forall e, next n (merge u (st c)) <> Failed e) /\
      step E c = Config (next n (merge u (st c))) (merge u (st c)) w' ((n, u) :: log c)).
Proof.
  intros Hc. unfold step. rewrite Hc.
  destruct (node_fn E n (st c) (wd c)) as [[u | e] w']; [| eauto].
  cbv zeta.
  destruct (next n (merge u (st c))) eqn:Hn; [right | right | left; eauto];
    exists u, w'; rewrite Hn;
      (split; [reflexivity |]); (split; [intros e0; discriminate | reflexivity]).
Qed.

Lemma step_query_execution E c :
  cur c = At QueryExecution ->
  exists r w' u,
    execute_sql_query E (get (st c) "generated_sql") (wd c) = (Ok r, w') /\
    sql_shape r /\
    query_execution_node E (st c) (wd c) = (Ok u, w') /\
    u !! "sql_error" = Some (get r "sql_error") /\
    step E c
    = Config (if truthy (get r "sql_error") then At SelfCorrection else At Summarization)
             (merge u (st c)) w' ((QueryExecution, u) :: log c).
Proof.
  intros Hc.
  destruct (query_execution_node_spec E (st c) (wd c)) as (r & w' & Hrun & Hshape & Hnode).
  eexists r, w', _. split; [exact Hrun |]. split; [exact Hshape |].
  split; [exact Hnode |]. split; [reflexivity |].
  unfold step. rewrite Hc. simpl node_fn. rewrite Hnode.
  rewrite next_query_execution.
  match goal with |- context [truthy (get (merge ?u (st c)) "sql_error")] =>
    assert (Herr : get (merge u (st c)) "sql_error" = get r "sql_error")
      by (unfold get at 1; rewrite (merge_lookup_update u (st c) "sql_error" (get r "sql_error"));
          reflexivity)
  end.
  rewrite Herr. destruct (truthy (get r "sql_error")); reflexivity.
Qed.

Lemma next_router_cases s :
  next Router s = At DirectResponse \/ next Router s = At LoadMemory \/
  exists e, next Router s = Failed e.
Proof.
  unfold next, edges. destruct (router_selector s) as [[| | | label | |] | e]; eauto.
  simpl. destruct (String.eqb label "general_conversation"); [eauto |].
  destruct (String.eqb label "sql_query"); eauto.
Qed.

Lemma all_attempts_failed_other n u l :
  n <> QueryExecution -> all_attempts_failed l -> all_attempts_failed ((n, u) :: l).
Proof. intros Hn Hl. constructor; [intros H; contradiction | exact Hl]. Qed.

Lemma balanced_start input w : balanced (start input w).
Proof. split; [constructor | reflexivity]. Qed.

Lemma balanced_step E c : balanced c -> balanced (step E c).
Proof.
  intros Hb. unfold balanced in Hb.
  destruct (cur c) as [n | | e] eqn:Hc;
    [| rewrite step_halted by (intros n; rewrite Hc; discriminate);
       unfold balanced; rewrite Hc; exact I ..].
  destruct n;
    try (lazymatch type of Hc with _ = At QueryExecution => fail | _ => idtac end;
         destruct (step_cases E c _ Hc) as [(e & w' & ->) | (u & w' & _ & Hok & ->)];
         [exact I | unfold balanced; simpl cur; simpl log]).
  - (* router *)
    destruct Hb as [Hall Hcount].
    destruct (next_router_cases (merge u (st c))) as [-> | [-> | [e He]]];
      [exact I | | rewrite He; exact I].
    split; [apply all_attempts_failed_other; [discriminate | exact Hall] | exact Hcount].
  - exact I.
  - destruct Hb as [Hall Hcount].
    split; [apply all_attempts_failed_other; [discriminate | exact Hall] | exact Hcount].
  - destruct Hb as [Hall Hcount].
    split; [apply all_attempts_failed_other; [discriminate | exact Hall] | exact Hcount].
  - destruct Hb as [Hall Hcount].
    split; [apply all_attempts_failed_other; [discriminate | exact Hall] | exact Hcount].
  - (* query_execution *)
    destruct Hb as [Hall Hcount].
    destruct (step_query_execution E c Hc) as (r & w' & u & _ & _ & _ & Hu & ->).
    unfold balanced. simpl cur.
    destruct (truthy (get r "sql_error")) eqn:Ht; [| exact I].
    simpl log. split.
    + constructor; [| exact Hall]. intros _. simpl. unfold get. rewrite Hu. exact Ht.
    + change (S (executions QueryExecution (log c)) = S (executions SelfCorrection (log c))).
      congruence.
  - (* self_correction *)
    destruct Hb as [Hall Hcount].
    split; [apply all_attempts_failed_other; [discriminate | exact Hall] |].
    change (executions QueryExecution (log c) = S (executions SelfCorrection (log c))).
    exact Hcount.
  - (* summarization *)
    rewrite next_summarization.
    destruct (truthy (get (merge u (st c)) "query_result")); exact I.
  - exact I.
  - exact I.
  - exact I.
  - exact I.
Qed.

Lemma balanced_run E k c : balanced c -> balanced (run E k c).
Proof.
  revert c. induction k as [| k IH]; intros c Hb; [exact Hb |].
  rewrite run_step. apply IH, balanced_step, Hb.
Qed.

(** C1. Self-correction convergence. In every run from the entry point,
    when the run stands at query_execution and this attempt, the N-th of
    the run, returns a result whose [sql_error] is [None], the next cursor
    is summarization; the log then holds exactly N query_execution steps
    and N-1 self_correction steps, [sql_error] is [None] in the state at
    entry to summarization, and every earlier attempt had left an error
    (so this attempt is the first without one). *)
Theorem self_correction_convergence (E : env) (input : gmap string value) (w : world)
        (k N : nat) (u : gmap string value) (w' : world) :
  let c := run E k (start input w) in
  cur c = At QueryExecution ->
  S (executions QueryExecution (log c)) = N ->
  query_execution_node E (st c) (wd c) = (Ok u, w') ->
  u !! "sql_error" = Some VNone ->
  step E c = Config (At Summarization) (merge u (st c)) w' ((QueryExecution, u) :: log c) /\
  executions QueryExecution (log (step E c)) = N /\
  executions SelfCorrection (log (step E c)) = N - 1 /\
  st (step E c) !! "sql_error" = Some VNone /\
  all_attempts_failed (log c).
Proof.
  intros c Hc HN Hnode Hnull.
  pose proof (balanced_run E k _ (balanced_start input w)) as Hb.
  fold c in Hb. unfold balanced in Hb. rewrite Hc in Hb. destruct Hb as [Hall Hcount].
  destruct (step_query_execution E c Hc) as (r & w2 & u2 & _ & _ & Hnode2 & Hu & Hstep).
  rewrite Hnode in Hnode2. injection Hnode2 as <- <-.
  rewrite Hnull in Hu. injection Hu as Hr. rewrite <- Hr in Hstep. simpl in Hstep.
  rewrite Hstep. simpl.
  split; [reflexivity |].
  split; [exact HN |].
  split.
  - change (executions SelfCorrection (log c) = N - 1). lia.
  - split; [apply merge_lookup_update; exact Hnull | exact Hall].
Qed.

(** The first attempt fails, the corrected query succeeds: summarization
    is reached after two executions and one correction. *)
Lemma self_correction_convergence_witness :
  cur (step env_sql_route (run env_sql_route 6 (start sample_input world0)))
  = At Summarization /\
  executions QueryExecution
    (log (step env_sql_route (run env_sql_route 6 (start sample_input world0)))) = 2 /\
  executions SelfCorrection
    (log (step env_sql_route (run env_sql_route 6 (start sample_input world0)))) = 1 /\
  st (step env_sql_route (run env_sql_route 6 (start sample_input world0))) !! "sql_error"
  = Some VNone.
Proof.
  set (c := run env_sql_route 6 (start sample_input world0)).
  destruct (query_execution_node env_sql_route (st c) (wd c)) as [[u | e] w'] eqn:Hnode;
    [| vm_compute in Hnode; discriminate Hnode].
  assert (Hnull : u !! "sql_error" = Some VNone).
  { vm_compute in Hnode. injection Hnode as <- _. reflexivity. }
  assert (Hcur : cur c = At QueryExecution) by (vm_compute; reflexivity).
  assert (Hcount : S (executions QueryExecution (log c)) = 2) by (vm_compute; reflexivity).
  destruct (self_correction_convergence env_sql_route sample_input world0 6 2 u w'
              Hcur Hcount Hnode Hnull)
    as (Hstep & Hexec & Hcorr & Herr & _).
  fold c in Hstep, Hexec, Hcorr, Herr.
  split; [rewrite Hstep; reflexivity |].
  split; [exact Hexec |]. split; [exact Hcorr | exact Herr].
Defined.

(** ** The cycle has no bound *)











(** * Further properties of the steps and tools *)

(** ** Memory curation and saving *)

(** X1. Memory curation never raises and always returns exactly the key
    [facts_to_save], holding a value that has a length; with no chat
    history it returns the empty list without calling the model. *)
Theorem curate_memory_never_raises (E : env) (s : gmap string value) (w : world) :
  exists facts w',
    curate_memory_node E s w = (Ok {[ "facts_to_save" := facts ]}, w') /\
    (exists n, py_len facts = Ok n) /\
    (truthy (get s "chat_history") = false -> facts = VList [] /\ w' = w).
Proof.
  unfold curate_memory_node.
  destruct (truthy (get s "chat_history")) eqn:Hh; simpl.
  2: { exists (VList []), w. split; [reflexivity |]. split; [exists 0; reflexivity | auto]. }
  unfold try_except.
  match goal with
  | |- context [match ?body w with _ => _ end] => destruct (body w) as [[u | e] w'] eqn:Hb
  end.
  2: { exists (VList []), w'. split; [reflexivity |].
       split; [exists 0; reflexivity | discriminate]. }
  unfold bind, lift, invoke_chat_completion in Hb.
  destruct (chat_history_str E (get s "chat_history")); [| discriminate Hb].
  destruct (llm E (llm_calls w)) as [reply | | e]; simpl in Hb; try discriminate Hb.
  destruct reply as [| ch reply]; simpl in Hb; [discriminate Hb |].
  destruct (json_loads E (String ch reply)) as [decoded | e]; [| discriminate Hb].
  destruct (value_get decoded "facts_to_save" (VList [])) as [facts | e]; [| discriminate Hb].
  destruct (py_len facts) as [n | e] eqn:Hlen; [| discriminate Hb].
  injection Hb as <- <-.
  exists facts. eexists. split; [reflexivity |]. split; [exists n; exact Hlen | discriminate].
Qed.




(** ** Retrieval steps *)

(** ** Retrieval steps *)








(** ** Execution outcomes and where they lead *)


Lemma step_execution_result E c q r w' :
  cur c = At QueryExecution ->
  st c !! "generated_sql" = Some (VStr q) ->
  execute_sql_query E (VStr q) (wd c) = (Ok r, w') ->
  cur (step E c)
  = (if truthy (get r "sql_error") then At SelfCorrection else At Summarization) /\
  wd (step E c) = w' /\
  st (step E c) !! "sql_error" = Some (get r "sql_error") /\
  st (step E c) !! "query_result" = Some (get r "query_result") /\
  st (step E c) !! "generated_sql" = Some (VStr q) /\
  (forall k, k <> "sql_error" -> k <> "query_result" -> k <> "generated_sql" ->
             st (step E c) !! k = st c !! k).
Proof.
  intros Hc Hq Hrun.
  destruct (step_query_execution E c Hc) as (r2 & w2 & u & Hrun2 & _ & Hnode & _ & Hstep).
  assert (Hg : get (st c) "generated_sql" = VStr q) by (unfold get; rewrite Hq; reflexivity).
  rewrite Hg, Hrun in Hrun2. injection Hrun2 as <- <-.
  destruct (query_execution_node_spec E (st c) (wd c)) as (r3 & w3 & Hrun3 & _ & Hspec).
  rewrite Hg, Hrun in Hrun3. injection Hrun3 as <- <-.
  rewrite Hspec in Hnode. injection Hnode as <-.
  rewrite Hg in Hstep. rewrite Hstep. cbn [cur wd st].
  split; [reflexivity |]. split; [reflexivity |].
  split; [apply merge_lookup_update; reflexivity |].
  split; [apply merge_lookup_update; reflexivity |].
  split; [apply merge_lookup_update; reflexivity |].
  intros k Hk1 Hk2 Hk3. apply merge_lookup_other.
  rewrite !lookup_insert_ne by congruence. apply lookup_singleton_ne. congruence.
Qed.



(** X6. A query that runs but gives no row (a statement without result
    set, or an empty fetch) is a success with no data: [query_result] is
    the empty list and [sql_error] is [None], the cursor moves to
    summarization, and one step later the summary is the fixed no-data
    text and the cursor is at curate_memory, without any model call for
    the summary. *)
Theorem empty_result_skips_model_summary (E : env) (c : config) (q : string) :
  cur c = At QueryExecution ->
  st c !! "generated_sql" = Some (VStr q) ->
  PyStr.startswith (PyStr.upper (PyStr.strip q)) "SELECT" = true ->
  db E (db_attempts (wd c)) q = NoDescription \/ db E (db_attempts (wd c)) q = Fetched [] ->
  cur (step E c) = At Summarization /\
  st (step E c) !! "query_result" = Some (VList []) /\
  st (step E c) !! "sql_error" = Some VNone /\
  cur (run E 2 c) = At CurateMemory /\
  st (run E 2 c) !! "summary" = Some (VStr "The query returned no data to summarize.") /\
  llm_calls (wd (run E 2 c)) = llm_calls (wd c).
Proof.
  intros Hc Hq Hpre Hdb.
  assert (Hrun : exists w', execute_sql_query E (VStr q) (wd c)
                            = (Ok (sql_result (VList []) VNone), w') /\
                            llm_calls w' = llm_calls (wd c)).
  { unfold execute_sql_query.
    assert (Hne : truthy (VStr (PyStr.strip q)) = true)
      by (destruct (PyStr.strip q); [discriminate Hpre | reflexivity]).
    rewrite Hne, Hpre. change (negb true) with false. cbv iota.
    unfold try_except, run_query.
    destruct Hdb as [-> | ->]; eexists; split; reflexivity. }
  destruct Hrun as (w' & Hrun & Hllm).
  destruct (step_execution_result E c q _ _ Hc Hq Hrun)
    as (Hcur & Hwd & Herr & Hres & _ & _).
  change (get (sql_result (VList []) VNone) "sql_error") with VNone in *.
  change (get (sql_result (VList []) VNone) "query_result") with (VList []) in *.
  simpl in Hcur.
  split; [exact Hcur |]. split; [exact Hres |]. split; [exact Herr |].
  assert (Hempty : truthy (get (st (step E c)) "query_result") = false)
    by (unfold get; rewrite Hres; reflexivity).
  change (run E 2 c) with (step E (step E c)).
  assert (Hstep2 : step E (step E c)
                   = Config (At CurateMemory)
                       (merge {[ "summary" := VStr "The query returned no data to summarize." ]}
                              (st (step E c)))
                       (wd (step E c))
                       ((Summarization,
                         {[ "summary" := VStr "The query returned no data to summarize." ]})
                          :: log (step E c))).
  { unfold step at 1. rewrite Hcur. simpl node_fn. unfold summarization_node.
    rewrite Hempty. simpl. rewrite next_summarization.
    assert (Hq2 : get (merge {[ "summary" := VStr "The query returned no data to summarize." ]}
                             (st (step E c))) "query_result"
                  = get (st (step E c)) "query_result")
      by (unfold get; rewrite merge_lookup_other; reflexivity).
    rewrite Hq2, Hempty. reflexivity. }
  rewrite Hstep2. simpl.
  split; [reflexivity |]. split; [apply merge_lookup_update; reflexivity |].
  rewrite Hwd. exact Hllm.
Qed.

(** A statement without result set. *)
Lemma empty_result_skips_model_summary_witness :
  cur (run env_no_rows 2 sample_at_execution) = At CurateMemory /\
  st (run env_no_rows 2 sample_at_execution) !! "summary"
  = Some (VStr "The query returned no data to summarize.").
Proof.
  destruct (empty_result_skips_model_summary env_no_rows sample_at_execution
              "SELECT total FROM sales" eq_refl eq_refl eq_refl (or_introl eq_refl))
    as (_ & _ & _ & Hcur & Hsum & _).
  split; [exact Hcur | exact Hsum].
Defined.

(** ** Self-correction without its inputs *)



(** ** Summary and visualization *)




Lemma visualization_planning_unusable E s w q :
  s !! "question" = Some (VStr q) ->
  unusable_plan_reply E (llm E (llm_calls w)) ->
  exists w', visualization_planning_node E s w = (Ok {[ "visualization_plan" := VNone ]}, w').
Proof.
  intros Hq Hbad. unfold visualization_planning_node.
  destruct (truthy (get s "query_result")) eqn:Hd; [| eexists; reflexivity].
  change (negb true) with false. cbv iota.
  unfold bind at 1, item. rewrite Hq. unfold ret at 1.
  unfold bind at 1, plan_visualizations. simpl sliceable. rewrite bind_lift_ok, Hd.
  change (negb true) with false. cbv iota.
  unfold try_except, bind, lift, invoke_chat_completion.
  destruct (data_preview (get s "query_result")); [| eexists; reflexivity].
  destruct (llm E (llm_calls w)) as [[| ch reply] | | e]; simpl in Hbad |- *;
    try (eexists; reflexivity).
  destruct Hbad as [Hempty | [e He]]; [discriminate Hempty |].
  rewrite He. eexists. reflexivity.
Qed.

(** X9. When no plan can be read from the model (it fails, answers
    nothing, or its answer does not validate), visualization planning does
    not raise: the plan is [None], figure generation then returns an empty
    list of figures, and two steps later the turn is at curate_memory. *)
Theorem failed_planning_skips_figures (E : env) (c : config) (q : string) :
  cur c = At PlanVisualization ->
  st c !! "question" = Some (VStr q) ->
  unusable_plan_reply E (llm E (llm_calls (wd c))) ->
  cur (step E c) = At FigureGeneration /\
  cur (run E 2 c) = At CurateMemory /\
  st (run E 2 c) !! "visualization_plan" = Some VNone /\
  st (run E 2 c) !! "plotly_figure_json" = Some (VList []).
Proof.
  intros Hc Hq Hbad.
  destruct (visualization_planning_unusable E (st c) (wd c) q Hq Hbad) as (w1 & Hnode).
  assert (Hstep : step E c
                  = Config (At FigureGeneration)
                           (merge {[ "visualization_plan" := VNone ]} (st c)) w1
                           ((PlanVisualization, {[ "visualization_plan" := VNone ]}) :: log c)).
  { unfold step. rewrite Hc. simpl node_fn. rewrite Hnode. reflexivity. }
  split; [rewrite Hstep; reflexivity |].
  change (run E 2 c) with (step E (step E c)). rewrite Hstep.
  assert (Hplan : get (merge {[ "visualization_plan" := VNone ]} (st c)) "visualization_plan"
                  = VNone)
    by (unfold get; rewrite (merge_lookup_update _ (st c) "visualization_plan" VNone);
        reflexivity).
  unfold step. simpl cur. cbv iota. simpl node_fn. unfold figure_generation_node.
  simpl st. rewrite Hplan. simpl.
  split; [reflexivity |].
  split; [rewrite merge_lookup_other by reflexivity; apply merge_lookup_update; reflexivity
         | apply merge_lookup_update; reflexivity].
Qed.

(** A model whose answer does not validate as a plan. *)
Lemma failed_planning_skips_figures_witness :
  cur (run env_second_try 2 sample_at_planning) = At CurateMemory /\
  st (run env_second_try 2 sample_at_planning) !! "plotly_figure_json" = Some (VList []).
Proof.
  assert (Hbad : unusable_plan_reply env_second_try
                   (llm env_second_try (llm_calls (wd sample_at_planning)))).
  { simpl. right. eexists. reflexivity. }
  destruct (failed_planning_skips_figures env_second_try sample_at_planning
              "What were total sales last month?" eq_refl eq_refl Hbad)
    as (_ & Hcur & _ & Hfigs).
  split; [exact Hcur | exact Hfigs].
Defined.

Lemma figures_bound E charts data figs :
  figures E charts data = Ok figs ->
  List.length figs <= List.length charts /\ Forall is_string figs.
Proof.
  revert figs. induction charts as [| chart rest IH]; intros figs H; simpl in H.
  - injection H as <-. split; [reflexivity | constructor].
  - destruct chart; try discriminate H.
    destruct (figures E rest data) as [figs' | e]; [| discriminate H].
    destruct (IH figs' eq_refl) as [Hlen Hstr].
    destruct (render E (VDict d) data) as [fig |]; injection H as <-; simpl.
    + split; [lia | constructor; [exists fig; reflexivity | exact Hstr]].
    + split; [lia | exact Hstr].
Qed.

(** X10. Figure generation returns exactly the key
    [plotly_figure_json], holding a list of strings with at most one
    figure per chart of the plan (a chart that cannot be rendered is
    skipped, not a failure), and it changes nothing in the world. *)
Theorem figure_count_bounded (E : env) (s : gmap string value) (w : world)
        (u : gmap string value) (w' : world) :
  figure_generation_node E s w = (Ok u, w') ->
  exists figs,
    u = {[ "plotly_figure_json" := VList figs ]} /\
    w' = w /\
    Forall is_string figs /\
    (forall charts,
        value_get (get s "visualization_plan") "charts" VNone = Ok (VList charts) ->
        List.length figs <= List.length charts).
Proof.
  unfold figure_generation_node. intros H.
  destruct (truthy (get s "visualization_plan")); simpl in H.
  2: { injection H as <- <-. exists []. repeat split; [constructor | intros; simpl; lia]. }
  unfold bind, lift in H.
  destruct (value_get (get s "visualization_plan") "charts" VNone) as [charts | e];
    [| discriminate H].
  destruct (negb (truthy charts) || negb (truthy (get s "query_result"))).
  { injection H as <- <-. exists []. repeat split; [constructor | intros; simpl; lia]. }
  destruct (iterate charts) as [items | e] eqn:Hit; [| discriminate H].
  destruct (figures E items (get s "query_result")) as [figs | e] eqn:Hfigs;
    [| discriminate H].
  injection H as <- <-. exists figs.
  destruct (figures_bound E items _ figs Hfigs) as [Hlen Hstr].
  repeat split; [exact Hstr |].
  intros charts' Heq. injection Heq as ->. simpl in Hit. injection Hit as <-. exact Hlen.
Qed.

(** A plan of two charts, one of which cannot be rendered. *)
Lemma figure_count_bounded_witness :
  exists figs,
    figure_generation_node env_renders sample_plan_state world0
    = (Ok {[ "plotly_figure_json" := VList figs ]}, world0) /\
    List.length figs <= 2.
Proof.
  destruct (figure_generation_node env_renders sample_plan_state world0)
    as [[u | e] w'] eqn:Hnode; [| vm_compute in Hnode; discriminate Hnode].
  destruct (figure_count_bounded env_renders sample_plan_state world0 u w' Hnode)
    as (figs & -> & -> & _ & Hbound).
  exists figs. split; [reflexivity |].
  apply (Hbound sample_charts). reflexivity.
Defined.

(** ** The wiring of the graph *)

(** X11. Only the edge out of the router can fail. For every other step
    and every state, the outgoing edge yields a next step or the end: the
    answers of the two selector functions are always keys of their path
    maps. *)
Theorem only_router_edge_can_fail (n : node) (s : gmap string value) (e : exn) :
  n <> Router -> next n s <> Failed e.
Proof.
  intros Hn. destruct n; try congruence; try (simpl; discriminate).
  - rewrite next_query_execution. destruct (truthy (get s "sql_error")); discriminate.
  - rewrite next_summarization. destruct (truthy (get s "query_result")); discriminate.
Qed.

(** The edge out of query_execution. *)
Lemma only_router_edge_can_fail_witness :
  next QueryExecution sample_sql_state <> Failed (Exn KeyError "summarization").
Proof.
  apply (only_router_edge_can_fail QueryExecution sample_sql_state). discriminate.
Defined.

(** ** How long a turn can run *)

Lemma run_succ E k c : run E (S k) c = step E (run E k c).
Proof. replace (S k) with (k + 1) by lia. rewrite run_add. reflexivity. Qed.







(** ** How a turn ends *)

Lemma memory_tail_step E c : memory_tail c -> memory_tail (step E c).
Proof.
  intros Ht. destruct (cur c) as [n | | e] eqn:Hc;
    [| rewrite step_halted by (intros n; rewrite Hc; discriminate); exact Ht ..].
  unfold memory_tail in Ht. rewrite Hc in Ht.
  destruct n;
    try (lazymatch type of Hc with
         | _ = At Router => fail
         | _ = At QueryExecution => fail
         | _ = At Summarization => fail
         | _ => idtac
         end;
         destruct (step_cases E c _ Hc) as [(e & w' & ->) | (u & w' & _ & _ & ->)];
         unfold memory_tail; simpl; eauto).
  - destruct (step_cases E c _ Hc) as [(e & w' & ->) | (u & w' & _ & Hok & ->)];
      [exact I |].
    destruct (next_router_cases (merge u (st c))) as [Hn | [Hn | [e Hn]]];
      [| | exfalso; exact (Hok e Hn)]; unfold memory_tail; cbn [cur]; rewrite Hn; exact I.
  - destruct (step_query_execution E c Hc) as (r & w' & u & _ & _ & _ & _ & ->).
    unfold memory_tail. cbn [cur]. destruct (truthy (get r "sql_error")); exact I.
  - destruct (step_cases E c _ Hc) as [(e & w' & ->) | (u & w' & _ & _ & ->)];
      [exact I |].
    unfold memory_tail. cbn [cur]. rewrite next_summarization.
    destruct (truthy (get (merge u (st c)) "query_result")); exact I.
  - destruct Ht as (u0 & rest & Hlog). rewrite Hlog. eauto.
Qed.

(** X13. Every turn that reaches the end has run curate_memory and then
    save_memory as its last two steps, on the conversational route as on
    the SQL route. *)
Theorem finished_turn_saved_memory (E : env) (input : gmap string value) (w : world)
        (k : nat) :
  cur (run E k (start input w)) = Done ->
  exists u u' rest,
    log (run E k (start input w)) = (SaveMemory, u') :: (CurateMemory, u) :: rest.
Proof.
  intros Hd.
  assert (Ht : memory_tail (run E k (start input w))).
  { clear Hd. induction k as [| k IH]; [exact I |].
    rewrite run_succ. apply memory_tail_step, IH. }
  unfold memory_tail in Ht. rewrite Hd in Ht. exact Ht.
Qed.

(** The sample turn ends after twelve steps. *)
Lemma finished_turn_saved_memory_witness :
  exists u u' rest,
    log (run env_sql_route 12 (start sample_input world0))
    = (SaveMemory, u') :: (CurateMemory, u) :: rest.
Proof.
  apply (finished_turn_saved_memory env_sql_route sample_input world0 12).
  vm_compute. reflexivity.
Defined.

(** ** What the callers rebuild from the stream *)





(** ** The entry points *)

Lemma last_user_message_spec msgs text :
  last_user_message msgs = Some text ->
  exists pre post,
    msgs = (pre ++ [user_msg text] ++ post)%list /\
    Forall (fun m => role m <> "user") post.
Proof.
  unfold last_user_message. induction msgs as [| x l IH] using rev_ind; [discriminate |].
  rewrite rev_app_distr. simpl.
  destruct (String.eqb (role x) "user") eqn:Hx.
  - intros H. injection H as <-. exists l, [].
    apply String.eqb_eq in Hx. split; [| constructor].
    destruct x as [r c]. simpl in Hx. subst r. reflexivity.
  - intros H. destruct (IH H) as (pre & post & -> & Hpost).
    exists pre, (post ++ [x])%list. split.
    + rewrite <- !app_assoc. reflexivity.
    + apply Forall_app. split; [exact Hpost |]. constructor; [| constructor].
      apply String.eqb_neq. exact Hx.
Qed.

Lemma last_user_message_none msgs :
  last_user_message msgs = None -> Forall (fun m => role m <> "user") msgs.
Proof.
  unfold last_user_message. induction msgs as [| x l IH] using rev_ind; [constructor |].
  rewrite rev_app_distr. simpl.
  destruct (String.eqb (role x) "user") eqn:Hx; [discriminate |].
  intros H. apply Forall_app. split; [apply IH, H |].
  constructor; [apply String.eqb_neq, Hx | constructor].
Qed.

(** X15. What [chat_completions] of the API accepts. When it hands a
    request to the executor, the question is the non-empty content of the
    last message whose role is user (later messages of other roles are
    skipped), the user id is the constant [open-webui-user], and the chat
    history has one entry per message. It rejects the request exactly
    when no message has the role user or the last such message is
    empty. *)
Theorem api_question_is_last_user_message (u : string) (request : ChatRequest) :
  (forall i, chat_completions true u request = Ok i ->
             exists pre post text,
               messages request = (pre ++ [user_msg text] ++ post)%list /\
               Forall (fun m => role m <> "user") post /\
               text <> EmptyString /\
               agent_input i !! "question" = Some (VStr text) /\
               agent_input i !! "user_id" = Some (VStr "open-webui-user") /\
               agent_input i !! "chat_history"
               = Some (VList (map to_message (messages request)))) /\
  (forall e, chat_completions true u request = Raise e ->
             e = Exn HTTPException "No user message found." /\
             (Forall (fun m => role m <> "user") (messages request) \/
              exists pre post,
                messages request = (pre ++ [user_msg EmptyString] ++ post)%list /\
                Forall (fun m => role m <> "user") post)).
Proof.
  unfold chat_completions. simpl negb. cbv iota.
  destruct (last_user_message (messages request)) as [[| ch text] |] eqn:Hl; split;
    intros x Hx; try discriminate Hx.
  - injection Hx as <-. split; [reflexivity |]. right.
    apply last_user_message_spec, Hl.
  - injection Hx as <-.
    destruct (last_user_message_spec _ _ Hl) as (pre & post & Hm & Hpost).
    exists pre, post, (String ch text).
    split; [exact Hm |]. split; [exact Hpost |]. split; [discriminate |].
    repeat split.
  - injection Hx as <-. split; [reflexivity |]. left.
    apply last_user_message_none, Hl.
Qed.

(** The follow-up request: its question is its last user message. *)
Lemma api_question_is_last_user_message_witness :
  exists i,
    chat_completions true "uuid-2" second_request = Ok i /\
    agent_input i !! "question" = Some (VStr "And the month before?").
Proof.
  destruct (chat_completions true "uuid-2" second_request) as [i | e] eqn:Hi;
    [| vm_compute in Hi; discriminate Hi].
  exists i. split; [reflexivity |].
  destruct (proj1 (api_question_is_last_user_message "uuid-2" second_request) i Hi)
    as (pre & post & text & _ & _ & _ & _ & _ & _).
  vm_compute in Hi. injection Hi as <-. reflexivity.
Defined.

(** X16. What [pipe] hands to the executor. The user id of the input is
    always the thread identifier itself; a request without conversation id
    runs under the thread [default-thread]; the question is the content of
    the last message whatever its role (empty when the message has no
    content, or when there is no message); and no chat history is put in
    the input. *)
Theorem pipe_input (body : gmap string value) (i : invocation) :
  pipe body = Ok i ->
  agent_input i !! "user_id" = Some (thread_id i) /\
  agent_input i !! "chat_history" = None /\
  (body !! "conversation_id" = None -> thread_id i = VStr "default-thread") /\
  (forall msgs d, body !! "messages" = Some (VList (msgs ++ [VDict d])) ->
                  agent_input i !! "question"
                  = Some (default (VStr EmptyString) (assoc "content" d))) /\
  (body !! "messages" = None -> agent_input i !! "question" = Some (VStr EmptyString)).
Proof.
  unfold pipe. intros H.
  match type of H with
  | match ?question with _ => _ end = _ => destruct question as [q | e] eqn:Hq; [| discriminate H]
  end.
  injection H as <-. cbn [agent_input thread_id].
  split; [reflexivity |]. split; [reflexivity |]. split; [| split].
  - intros Hc. unfold get_or. rewrite Hc. reflexivity.
  - intros msgs d Hm.
    assert (Hg : get_or body "messages" (VList []) = VList (msgs ++ [VDict d]))
      by (unfold get_or; rewrite Hm; reflexivity).
    assert (Ht : truthy (VList (msgs ++ [VDict d])) = true) by (destruct msgs; reflexivity).
    rewrite Hg, Ht, last_snoc in Hq. injection Hq as <-. reflexivity.
  - intros Hm.
    assert (Hg : get_or body "messages" (VList []) = VList [])
      by (unfold get_or; rewrite Hm; reflexivity).
    rewrite Hg in Hq. simpl in Hq. injection Hq as <-. reflexivity.
Qed.

(** A request with an assistant message last and no conversation id. *)
Lemma pipe_input_witness :
  exists i,
    pipe {[ "messages" := VList [VDict [("role", VStr "assistant"); ("content", VStr "Hello")]] ]}
    = Ok i /\
    thread_id i = VStr "default-thread" /\
    agent_input i !! "user_id" = Some (VStr "default-thread").
Proof.
  destruct (pipe {[ "messages" := VList [VDict [("role", VStr "assistant");
                                                 ("content", VStr "Hello")]] ]})
    as [i | e] eqn:Hi; [| vm_compute in Hi; discriminate Hi].
  exists i. split; [reflexivity |].
  destruct (pipe_input _ i Hi) as (Huser & _ & Hthread & _).
  rewrite Huser, Hthread by reflexivity. split; reflexivity.
Defined.

(** X17. Where the router sends a turn. When the model's reply decodes to
    a mapping, a route [sql_query] leads to load_memory, a route
    [general_conversation] or a mapping without the key [route] leads to
    direct_response, and in each case the step costs one model call and
    stores the label in [next_node]. *)
Theorem router_routes (E : env) (s : gmap string value) (w : world)
        (h reply : string) (decoded : list (string * value)) :
  chat_history_str E (get_or s "chat_history" (VList [])) = Ok h ->
  llm E (llm_calls w) = Reply reply ->
  json_loads E reply = Ok (VDict decoded) ->
  (assoc "route" decoded = Some (VStr "sql_query") ->
   cur (step E (start s w)) = At LoadMemory /\
   st (step E (start s w)) !! "next_node" = Some (VStr "sql_query") /\
   wd (step E (start s w)) = asked w) /\
  (assoc "route" decoded = Some (VStr "general_conversation") \/
   assoc "route" decoded = None ->
   cur (step E (start s w)) = At DirectResponse /\
   st (step E (start s w)) !! "next_node" = Some (VStr "general_conversation") /\
   wd (step E (start s w)) = asked w).
Proof.
  intros Hh Hllm Hjson.
  assert (Hgo : forall label,
             default (VStr "general_conversation") (assoc "route" decoded) = VStr label ->
             forall n, assoc label [("general_conversation", Goto DirectResponse);
                                    ("sql_query", Goto LoadMemory)] = Some (Goto n) ->
             cur (step E (start s w)) = At n /\
             st (step E (start s w)) !! "next_node" = Some (VStr label) /\
             wd (step E (start s w)) = asked w).
  { intros label Hlabel n Hn. unfold step, start. cbn [cur st wd log].
    unfold entry_point. simpl node_fn.
    rewrite (router_node_decoded E s w h reply decoded Hh Hllm Hjson), Hlabel. cbv zeta.
    rewrite (next_router _ label) by (apply merge_lookup_update; reflexivity).
    rewrite Hn. cbn [cursor_of cur st wd].
    split; [reflexivity |]. split; [apply merge_lookup_update; reflexivity | reflexivity]. }
  split.
  - intros Hr. apply (Hgo "sql_query"); [rewrite Hr; reflexivity | reflexivity].
  - intros [Hr | Hr]; apply (Hgo "general_conversation");
      first [rewrite Hr; reflexivity | reflexivity].
Qed.

(** The sample turn takes the SQL route. *)
Lemma router_routes_witness :
  cur (step env_sql_route (start sample_input world0)) = At LoadMemory.
Proof.
  apply (proj1 (router_routes env_sql_route sample_input world0 EmptyString
                  (route_json "sql_query") [("route", VStr "sql_query")]
                  eq_refl eq_refl eq_refl)).
  reflexivity.
Defined.

(** X18. The standalone server keys threads by user. The thread
    identifier is [user-] followed by the user of the request body, so two
    requests of one user share a thread whatever their messages, and every
    request without a user runs under the one thread [user-default-user];
    the input carries no chat history; and a request whose last message
    has no content, or that has no message, is rejected. *)
Theorem main_thread_per_user (E : env) (body : gmap string value) :
  (forall i, Main.chat_completions E true body = Ok i ->
             thread_id i
             = VStr ("user-" ++ Main.format_value E (get_or body "user" (VStr "default-user"))) /\
             (body !! "user" = None -> thread_id i = VStr "user-default-user") /\
             agent_input i !! "user_id" = Some (get_or body "user" (VStr "default-user")) /\
             agent_input i !! "chat_history" = None /\
             exists q, agent_input i !! "question" = Some q /\ truthy q = true) /\
  (body !! "messages" = None ->
   Main.chat_completions E true body
   = Raise (Exn HTTPException "No question found in the request.")).
Proof.
  unfold Main.chat_completions. simpl negb. cbv iota. split.
  - intros i H.
    match type of H with
    | match ?question with _ => _ end = _ => destruct question as [q | e]; [| discriminate H]
    end.
    destruct (truthy q) eqn:Hq; [| discriminate H].
    simpl in H. injection H as <-. cbn [thread_id agent_input].
    split; [reflexivity |]. split; [| split; [reflexivity | split; [reflexivity |]]].
    + intros Hu. unfold get_or. rewrite Hu. reflexivity.
    + exists q. split; [reflexivity | exact Hq].
  - intros Hm. unfold get_or. rewrite Hm. reflexivity.
Qed.

(** A request without user. *)
Lemma main_thread_per_user_witness :
  exists i,
    Main.chat_completions env_second_try true
      {[ "messages" := VList [VDict [("role", VStr "user"); ("content", VStr "Hi")]] ]}
    = Ok i /\
    thread_id i = VStr "user-default-user".
Proof.
  destruct (Main.chat_completions env_second_try true
              {[ "messages" := VList [VDict [("role", VStr "user"); ("content", VStr "Hi")]] ]})
    as [i | e] eqn:Hi; [| vm_compute in Hi; discriminate Hi].
  exists i. split; [reflexivity |].
  destruct (proj1 (main_thread_per_user env_second_try _) i Hi) as (_ & Hanon & _).
  apply Hanon. reflexivity.
Defined.

(** ** The retrying model client *)

Lemma retry_unfold k api messages n :
  LlmClient.retry (S (S k)) api messages n
  = match LlmClient.attempt api messages n with
    | (LlmFail e, used) =>
        let (r, more) := LlmClient.retry (S k) api messages (n + used) in (r, used + more)
    | (r, used) => (r, used)
    end.
Proof. reflexivity. Qed.

Lemma retry_spec k api messages n r used :
  LlmClient.retry (S k) api messages n = (r, used) ->
  LlmClient.chat_messages messages <> [] ->
  1 <= used <= S k /\
  (forall j, j < used - 1 -> exists e, api (n + j) = LlmClient.ApiError e) /\
  match r with
  | Reply t => api (n + (used - 1)) = LlmClient.ApiContent t
  | NoReply => api (n + (used - 1)) = LlmClient.ApiNoChoices
  | LlmFail e => used = S k /\ api (n + (used - 1)) = LlmClient.ApiError e
  end.
Proof.
  revert n r used. induction k as [| k IH]; intros n r used H Hm.
  - simpl in H. unfold LlmClient.attempt in H.
    destruct (LlmClient.chat_messages messages); [congruence |].
    destruct (api n) eqn:Ha; injection H as <- <-; simpl; rewrite Nat.add_0_r;
      (split; [lia |]); (split; [intros j Hj; lia |]); auto.
  - rewrite retry_unfold in H. unfold LlmClient.attempt in H.
    destruct (LlmClient.chat_messages messages) eqn:Hcm; [congruence |].
    destruct (api n) eqn:Ha.
    + injection H as <- <-. simpl. rewrite Nat.add_0_r.
      split; [lia |]. split; [intros j Hj; lia | exact Ha].
    + injection H as <- <-. simpl. rewrite Nat.add_0_r.
      split; [lia |]. split; [intros j Hj; lia | exact Ha].
    + destruct (LlmClient.retry (S k) api messages (n + 1)) as [r' more] eqn:Hrec.
      injection H as <- <-.
      destruct (IH (n + 1) r' more Hrec Hm) as (Hb & Hfail & Hlast).
      split; [lia |]. split.
      * intros j Hj. destruct j as [| j]; [rewrite Nat.add_0_r; eauto |].
        replace (n + S j) with (n + 1 + j) by lia. apply Hfail. lia.
      * destruct r' as [t | | e'].
        -- rewrite <- Hlast. f_equal. lia.
        -- rewrite <- Hlast. f_equal. lia.
        -- destruct Hlast as [Hmore Hl]. split; [lia |].
           rewrite <- Hl. f_equal. lia.
Qed.

(** X19. The model client retries at most three times. One invocation
    makes between one and four API calls (none when no message carries
    both a role and a content, and then it returns [None]); every call
    before the last one raised; a reply is what the last call returned;
    and an exception comes out only after four failed calls, and it is the
    fourth one. *)
Theorem invoke_retries_at_most_four (api : nat -> LlmClient.api_outcome)
        (messages : list (list (string * value))) (n : nat) (r : llm_reply) (used : nat) :
  LlmClient.invoke_chat_completion api messages n = (r, used) ->
  used <= 4 /\
  (LlmClient.chat_messages messages = [] -> r = NoReply /\ used = 0) /\
  (LlmClient.chat_messages messages <> [] ->
   1 <= used /\
   (forall j, j < used - 1 -> exists e, api (n + j) = LlmClient.ApiError e) /\
   match r with
   | Reply t => api (n + (used - 1)) = LlmClient.ApiContent t
   | NoReply => api (n + (used - 1)) = LlmClient.ApiNoChoices
   | LlmFail e => used = 4 /\ api (n + 3) = LlmClient.ApiError e
   end).
Proof.
  unfold LlmClient.invoke_chat_completion. intros H.
  destruct (LlmClient.chat_messages messages) as [| m ms] eqn:Hcm.
  - simpl in H. unfold LlmClient.attempt in H. rewrite Hcm in H. injection H as <- <-.
    split; [lia |]. split; [auto | congruence].
  - assert (Hne : LlmClient.chat_messages messages <> []) by (rewrite Hcm; discriminate).
    destruct (retry_spec 3 api messages n r used H Hne) as (Hb & Hfail & Hlast).
    split; [lia |]. split; [discriminate |]. intros _.
    split; [lia |]. split; [exact Hfail |].
    destruct r; [exact Hlast | exact Hlast |].
    destruct Hlast as [-> Hl]. split; [reflexivity | exact Hl].
Qed.

(** Two rate-limit errors, then an answer: three calls. *)
Lemma invoke_retries_at_most_four_witness :
  LlmClient.invoke_chat_completion api_third_time one_message 0 = (Reply "SELECT 1", 3) /\
  3 <= 4.
Proof.
  split; [reflexivity |].
  apply (invoke_retries_at_most_four api_third_time one_message 0 (Reply "SELECT 1") 3).
  reflexivity.
Defined.

(** ** The connection pool *)

Lemma connect_loop_unfold opens delay a R pool :
  Db.connect_loop opens delay a (S (S R)) pool
  = match opens a with
    | Db.Opened => (Ok (Some a), 0)
    | Db.OpenFailed e =>
        let (r, slept) := Db.connect_loop opens delay (S a) (S R) pool in
        (r, delay + slept)
    end.
Proof. reflexivity. Qed.

Lemma connect_loop_spec opens delay a R pool r slept :
  Db.connect_loop opens delay a (S R) pool = (r, slept) ->
  (exists j, j <= R /\ r = Ok (Some (a + j)) /\ opens (a + j) = Db.Opened /\
             (forall i, i < j -> exists e, opens (a + i) = Db.OpenFailed e) /\
             slept = delay * j) \/
  (r = Raise (Exn ConnectionError "Failed to initialize database pool.") /\
   (forall i, i <= R -> exists e, opens (a + i) = Db.OpenFailed e) /\
   slept = delay * R).
Proof.
  revert a r slept. induction R as [| R IH]; intros a r slept H.
  - simpl in H. destruct (opens a) eqn:Ho; injection H as <- <-.
    + left. exists 0. rewrite Nat.add_0_r. repeat split; [lia | exact Ho | intros; lia | lia].
    + right. split; [reflexivity |]. split; [| lia].
      intros i Hi. replace i with 0 by lia. rewrite Nat.add_0_r. eauto.
  - rewrite connect_loop_unfold in H. destruct (opens a) eqn:Ho.
    + injection H as <- <-. left. exists 0. rewrite Nat.add_0_r.
      repeat split; [lia | exact Ho | intros; lia | lia].
    + destruct (Db.connect_loop opens delay (S a) (S R) pool) as [r' s'] eqn:Hrec.
      injection H as <- <-.
      destruct (IH (S a) r' s' Hrec) as [(j & Hj & -> & Hopen & Hfail & ->) | (-> & Hfail & ->)].
      * left. exists (S j). replace (a + S j) with (S a + j) by lia.
        repeat split; [lia | exact Hopen | | lia].
        intros i Hi. destruct i as [| i]; [rewrite Nat.add_0_r; eauto |].
        replace (a + S i) with (S a + i) by lia. apply Hfail. lia.
      * right. split; [reflexivity |]. split; [| lia].
        intros i Hi. destruct i as [| i]; [rewrite Nat.add_0_r; eauto |].
        replace (a + S i) with (S a + i) by lia. apply Hfail. lia.
Qed.

(** X20. Initialising the pool. With a parsable URL and at least one
    attempt allowed, [initialize_db_pool] either installs the pool of the
    first attempt that opens (every earlier attempt failed, and it slept
    [retry_delay] after each of them), or, when all [startup_retries]
    attempts fail, raises a connection error after sleeping between them
    but not after the last. With [startup_retries = 0] it makes no
    attempt and returns normally, leaving the pool as it was. *)
Theorem initialize_db_pool_outcome (opens : nat -> Db.open_outcome)
        (startup_retries retry_delay : nat) (db_pool : option nat)
        (r : res (option nat)) (slept : nat) :
  Db.initialize_db_pool true opens startup_retries retry_delay db_pool = (r, slept) ->
  (startup_retries = 0 -> r = Ok db_pool /\ slept = 0) /\
  (1 <= startup_retries ->
   (exists a, 1 <= a <= startup_retries /\ r = Ok (Some a) /\ opens a = Db.Opened /\
              (forall i, 1 <= i < a -> exists e, opens i = Db.OpenFailed e) /\
              slept = retry_delay * (a - 1)) \/
   (r = Raise (Exn ConnectionError "Failed to initialize database pool.") /\
    (forall i, 1 <= i <= startup_retries -> exists e, opens i = Db.OpenFailed e) /\
    slept = retry_delay * (startup_retries - 1))).
Proof.
  unfold Db.initialize_db_pool. intros H. split.
  - intros ->. simpl in H. injection H as <- <-. auto.
  - intros HR. destruct startup_retries as [| R]; [lia |].
    destruct (connect_loop_spec opens retry_delay 1 R db_pool r slept H)
      as [(j & Hj & -> & Hopen & Hfail & ->) | (-> & Hfail & ->)].
    + left. exists (1 + j).
      split; [lia |]. split; [reflexivity |]. split; [exact Hopen |]. split.
      * intros i Hi. replace i with (1 + (i - 1)) by lia. apply Hfail. lia.
      * replace (1 + j - 1) with j by lia. reflexivity.
    + right. split; [reflexivity |]. split.
      * intros i Hi. replace i with (1 + (i - 1)) by lia. apply Hfail. lia.
      * replace (S R - 1) with R by lia. reflexivity.
Qed.

(** The default five attempts with three seconds between them, against a
    server that refuses the first two pools. *)
Lemma initialize_db_pool_outcome_witness :
  Db.initialize_db_pool true opens_third_time 5 3 None = (Ok (Some 3), 6) /\
  exists a, 1 <= a <= 5 /\ opens_third_time a = Db.Opened.
Proof.
  split; [reflexivity |].
  assert (H5 : 1 <= 5) by lia.
  destruct (proj2 (initialize_db_pool_outcome opens_third_time 5 3 None (Ok (Some 3)) 6
                     eq_refl) H5)
    as [(a & Ha & _ & Hopen & _) | (Hr & _)]; [| discriminate Hr].
  exists a. split; [exact Ha | exact Hopen].
Defined.

(** X21. Queries on a closed pool. After [close_db_pool] (as before any
    initialisation) [get_db_connection] raises, and [execute_sql_query]
    turns that into a result instead of raising: for every SELECT the
    result carries [sql_error] "Database pool is not initialized." and no
    rows, nothing is sent to the database, the attempt is routed to
    self-correction, and [health_check] answers false. *)
Theorem closed_pool_fails_every_query (E : env) (db_pool : option nat)
        (acquire : nat -> res unit) (inner : nat -> string -> db_outcome)
        (check : res unit) (c : config) (q : string) :
  cur c = At QueryExecution ->
  st c !! "generated_sql" = Some (VStr q) ->
  PyStr.startswith (PyStr.upper (PyStr.strip q)) "SELECT" = true ->
  let E' := with_db E (Db.through_pool (Db.close_db_pool db_pool) acquire inner) in
  execute_sql_query E' (VStr q) (wd c)
  = (Ok (sql_result VNone (VStr "Database pool is not initialized.")),
     World (llm_calls (wd c)) (S (db_attempts (wd c))) (db_log (wd c))
           (search_calls (wd c)) (memory_log (wd c))) /\
  cur (step E' c) = At SelfCorrection /\
  db_log (wd (step E' c)) = db_log (wd c) /\
  Db.health_check (Db.close_db_pool db_pool) check = false.
Proof.
  intros Hc Hq Hpre E'.
  assert (Hrun : execute_sql_query E' (VStr q) (wd c)
                 = (Ok (sql_result VNone (VStr "Database pool is not initialized.")),
                    World (llm_calls (wd c)) (S (db_attempts (wd c))) (db_log (wd c))
                          (search_calls (wd c)) (memory_log (wd c)))).
  { unfold execute_sql_query.
    assert (Hne : truthy (VStr (PyStr.strip q)) = true)
      by (destruct (PyStr.strip q); [discriminate Hpre | reflexivity]).
    rewrite Hne, Hpre. reflexivity. }
  split; [exact Hrun |].
  destruct (step_execution_result E' c q _ _ Hc Hq Hrun) as (Hcur & Hwd & _).
  split; [exact Hcur |]. split; [rewrite Hwd; reflexivity | reflexivity].
Qed.

(** A turn whose pool was closed under it. *)
Lemma closed_pool_fails_every_query_witness :
  cur (step (with_db env_accepting
               (Db.through_pool (Db.close_db_pool (Some 1)) (fun _ => Ok tt)
                                (db env_accepting)))
            sample_at_execution)
  = At SelfCorrection.
Proof.
  apply (closed_pool_fails_every_query env_accepting (Some 1) (fun _ => Ok tt)
           (db env_accepting) (Ok tt) sample_at_execution "SELECT total FROM sales"
           eq_refl eq_refl eq_refl).
Defined.

(** ** Generated queries are stripped *)

Lemma rstrip_idempotent s : PyStr.rstrip (PyStr.rstrip s) = PyStr.rstrip s.
Proof.
  induction s as [| c s IH]; [reflexivity |].
  simpl. destruct (PyStr.rstrip s) as [| d r] eqn:Hr.
  - destruct (PyStr.is_space c) eqn:Hc; [reflexivity |].
    simpl. rewrite Hc. reflexivity.
  - change (PyStr.rstrip (String c (String d r)))
      with (match PyStr.rstrip (String d r) with
            | EmptyString => if PyStr.is_space c then EmptyString else String c EmptyString
            | r' => String c r'
            end).
    rewrite IH. reflexivity.
Qed.

Lemma rstrip_keeps_head c s :
  PyStr.is_space c = false -> exists t, PyStr.rstrip (String c s) = String c t.
Proof.
  intros Hc. simpl. destruct (PyStr.rstrip s); [rewrite Hc |]; eauto.
Qed.

Lemma lstrip_head s :
  PyStr.lstrip s = EmptyString \/
  exists c t, PyStr.lstrip s = String c t /\ PyStr.is_space c = false.
Proof.
  induction s as [| c s IH]; [left; reflexivity |].
  simpl. destruct (PyStr.is_space c) eqn:Hc; [exact IH | right; eauto].
Qed.

Lemma strip_idempotent s : PyStr.strip (PyStr.strip s) = PyStr.strip s.
Proof.
  unfold PyStr.strip.
  destruct (lstrip_head s) as [-> | (c & t & -> & Hc)]; [reflexivity |].
  destruct (rstrip_keeps_head c t Hc) as [t' Ht].
  assert (Hl : PyStr.lstrip (PyStr.rstrip (String c t)) = PyStr.rstrip (String c t))
    by (rewrite Ht; simpl; rewrite Hc; reflexivity).
  rewrite Hl. apply rstrip_idempotent.
Qed.

Lemma clean_sql_stripped reply g : clean_sql reply = Ok g -> PyStr.strip g = g.
Proof.
  unfold clean_sql. destruct (value_strip reply); [| discriminate].
  intros H. injection H as <-. apply strip_idempotent.
Qed.

(** X22. The query that generation or correction puts in the state is
    always a string without surrounding whitespace: whenever either step
    returns, stripping its [generated_sql] again changes nothing, so the
    text the SELECT check looks at is the text that is sent. *)
Theorem generated_sql_is_stripped (E : env) (s : gmap string value) (w : world)
        (u : gmap string value) (w' : world) :
  query_generation_node E s w = (Ok u, w') \/ self_correction_node E s w = (Ok u, w') ->
  exists g, u !! "generated_sql" = Some (VStr g) /\ PyStr.strip g = g.
Proof.
  intros [H | H].
  - unfold query_generation_node, bind, item, lift in H.
    destruct (s !! "question"); [| discriminate H].
    destruct (s !! "retrieved_schema"); [| discriminate H].
    destruct (s !! "few_shot_examples"); [| discriminate H].
    simpl in H. destruct (invoke_chat_completion E w) as [[reply | e] w1]; [| discriminate H].
    destruct (clean_sql reply) as [g | e] eqn:Hg; [| discriminate H].
    injection H as <- <-. exists g. split; [reflexivity | apply (clean_sql_stripped reply g Hg)].
  - unfold self_correction_node, bind, item, lift in H.
    destruct (s !! "question"); [| discriminate H].
    destruct (s !! "generated_sql"); [| discriminate H].
    destruct (s !! "sql_error"); [| discriminate H].
    destruct (s !! "retrieved_schema"); [| discriminate H].
    simpl in H. destruct (invoke_chat_completion E w) as [[reply | e] w1]; [| discriminate H].
    destruct (clean_sql reply) as [g | e] eqn:Hg; [| discriminate H].
    injection H as <- <-. exists g. split; [reflexivity | apply (clean_sql_stripped reply g Hg)].
Qed.

(** A correction by the sample model. *)
Lemma generated_sql_is_stripped_witness :
  exists u w' g,
    self_correction_node env_always_failing
      (st (step env_always_failing sample_at_execution)) world0 = (Ok u, w') /\
    u !! "generated_sql" = Some (VStr g) /\ PyStr.strip g = g.
Proof.
  destruct (self_correction_node env_always_failing
              (st (step env_always_failing sample_at_execution)) world0)
    as [[u | e] w'] eqn:Hnode; [| vm_compute in Hnode; discriminate Hnode].
  destruct (generated_sql_is_stripped env_always_failing _ world0 u w' (or_intror Hnode))
    as (g & Hg & Hs).
  exists u, w', g. split; [reflexivity | split; [exact Hg | exact Hs]].
Defined.
